(** * MeliCAD MEP extension: the water-pipe hydraulics of [ArchMEP.py]

    A shallow embedding of [_ArchWaterPipe] (src/Mod/BIM/ArchMEP.py):
    [updateMaterialProperties], [calculateHydraulics] and [onChanged].
    The sanitary-fixture defaults, the colours of the pipe's view provider
    and the property schemas of the same file follow, then the commands of
    src/Mod/BIM/bimcommands/BimMEP.py.

    Numbers.  The Python code computes on [float], and the method is
    modelled twice.

    In the first model a float is idealised as a real number: [/], [*],
    [+] are the field operations, [math.pi] is [PI], [x ** 2] is the
    square, [x ** 0.9] (only evaluated on a positive base) is [Rpower], and
    [math.log10] is the decimal logarithm.  What Python turns into an
    exception at the level of the mathematics is there: [ZeroDivisionError]
    for a division by zero and [ValueError] for [math.log10] outside its
    domain.  Rounding, overflow, infinities and NaN are not.  This model
    carries the statements that do not depend on them: the guard, what is
    written and what is kept, the failures of the friction factor, the
    tables, the commands.  Where a statement about magnitudes is made on
    it, its hypotheses bound the inputs to a range in which the doubles of
    the program behave in the same way, and say so.

    The second model, [Binary64], computes on IEEE 754 doubles with
    Python's own rules for [/], [**] and [math.log10], [OverflowError]
    included.  It carries the statements in which rounding or the range of
    a double decides the answer: what Velocity and PressureLoss hold after
    a call, and the inputs at which the formulas of the specification are
    not what is stored.

    State.  The document object [obj] is mutated in place, and a value
    assigned before an exception is raised stays assigned.  A method is
    therefore a function from the object to an outcome that carries the
    object as it is when the method returns or raises. *)

From Stdlib Require Import Reals Lra Floats.
From stdpp Require Import base strings gmap.

Local Open Scope R_scope.

(** ** The document object *)

(** The properties of a water pipe that the three methods read or write.
    [Diameter] and [Length] stand for [obj.Diameter.Value] and
    [obj.Length.Value] (millimetres); [FlowRate] is in litres per minute. *)
Record WaterPipe : Type := mkWaterPipe {
  FlowRate : R;
  Diameter : R;
  Length : R;
  PipeMaterial : string;
  RoughnessCoeff : R;
  Velocity : R;
  PressureLoss : R
}.

Definition set_RoughnessCoeff (x : R) (o : WaterPipe) : WaterPipe :=
  mkWaterPipe (FlowRate o) (Diameter o) (Length o) (PipeMaterial o)
              x (Velocity o) (PressureLoss o).

Definition set_Velocity (x : R) (o : WaterPipe) : WaterPipe :=
  mkWaterPipe (FlowRate o) (Diameter o) (Length o) (PipeMaterial o)
              (RoughnessCoeff o) x (PressureLoss o).

Definition set_PressureLoss (x : R) (o : WaterPipe) : WaterPipe :=
  mkWaterPipe (FlowRate o) (Diameter o) (Length o) (PipeMaterial o)
              (RoughnessCoeff o) (Velocity o) x.

Definition set_Length (x : R) (o : WaterPipe) : WaterPipe :=
  mkWaterPipe (FlowRate o) (Diameter o) x (PipeMaterial o)
              (RoughnessCoeff o) (Velocity o) (PressureLoss o).

Definition set_FlowRate (x : R) (o : WaterPipe) : WaterPipe :=
  mkWaterPipe x (Diameter o) (Length o) (PipeMaterial o)
              (RoughnessCoeff o) (Velocity o) (PressureLoss o).

(** ** Python computations on the object: state and exceptions *)

Inductive exn : Type := ZeroDivisionError | ValueError.

Inductive outcome (A : Type) : Type :=
| Returned (a : A) (o : WaterPipe)
| Raised (e : exn) (o : WaterPipe).
Arguments Returned {A} a o.
Arguments Raised {A} e o.

(** The object as the caller finds it afterwards, returned or raised. *)
Definition final {A : Type} (r : outcome A) : WaterPipe :=
  match r with Returned _ o => o | Raised _ o => o end.

Definition completes {A : Type} (r : outcome A) : Prop :=
  match r with Returned _ _ => True | Raised _ _ => False end.

Definition Py (A : Type) : Type := WaterPipe -> outcome A.

Definition ret {A : Type} (a : A) : Py A := fun o => Returned a o.

Definition bind {A B : Type} (c : Py A) (k : A -> Py B) : Py B :=
  fun o => match c o with
           | Returned a o' => k a o'
           | Raised e o' => Raised e o'
           end.

Definition raise {A : Type} (e : exn) : Py A := fun o => Raised e o.

Definition get : Py WaterPipe := fun o => Returned o o.

Definition assign (f : WaterPipe -> WaterPipe) : Py unit :=
  fun o => Returned tt (f o).

Declare Scope py_scope.
Delimit Scope py_scope with py.
Notation "x <- c ;; k" := (bind c (fun x => k))
  (at level 100, c at next level, right associativity) : py_scope.
Notation "c ;;; k" := (bind c (fun _ => k))
  (at level 100, right associativity) : py_scope.

(** ** Float operations that can raise *)

Definition Reqb (x y : R) : bool := if Req_dec_T x y then true else false.
Definition Rgtb (x y : R) : bool := if Rlt_dec y x then true else false.

(** [x / y] on floats: [ZeroDivisionError] when [y == 0]. *)
Definition float_div (x y : R) : Py R :=
  if Reqb y 0 then raise ZeroDivisionError else ret (x / y).

(** [math.log10(x)]: [ValueError] ("math domain error") unless [x > 0]. *)
Definition log10 (x : R) : R := ln x / ln 10.

Definition math_log10 (x : R) : Py R :=
  if Rgtb x 0 then ret (log10 x) else raise ValueError.

(** [math.pi] *)
Definition math_pi : R := PI.

Notation "x // y" := (float_div x y) (at level 40, left associativity) : py_scope.

(** ** [_ArchWaterPipe.updateMaterialProperties] *)

Definition material_roughness : gmap string R :=
  <["Copper" := 0.0015]> (
  <["PVC" := 0.0001]> (
  <["PEX" := 0.0001]> (
  <["Steel" := 0.045]> (
  <["Cast Iron" := 0.25]> (
  <["HDPE" := 0.0001]> ∅))))).

(** [d.get(key, default)] *)
Definition dict_get {V : Type} (d : gmap string V) (key : string) (default : V) : V :=
  match d !! key with Some v => v | None => default end.

Definition updateMaterialProperties : Py unit :=
  (obj <- get ;;
   assign (set_RoughnessCoeff (dict_get material_roughness (PipeMaterial obj) 0.0015)))%py.

(** ** [_ArchWaterPipe.calculateHydraulics] *)

Definition calculateHydraulics : Py unit :=
  (obj <- get ;;
   if Reqb (FlowRate obj) 0 || Reqb (Diameter obj) 0 then ret tt else
   flow_m3s <- FlowRate obj // 60000.0 ;;
   diameter_m <- Diameter obj // 1000.0 ;;
   length_m <- Length obj // 1000.0 ;;
   radius <- diameter_m // 2 ;;
   let area := math_pi * radius ^ 2 in
   velocity <- (if Rgtb area 0 then flow_m3s // area else ret 0) ;;
   assign (set_Velocity velocity) ;;;
   reynolds <- (velocity * diameter_m) // 1.004e-6 ;;
   if Rgtb reynolds 0 then
     obj <- get ;;
     rel_rough <- RoughnessCoeff obj // (3.7 * diameter_m) ;;
     visc_term <- 5.74 // Rpower reynolds 0.9 ;;
     lg <- math_log10 (rel_rough + visc_term) ;;
     friction_factor <- 0.25 // lg ^ 2 ;;
     slender <- length_m // diameter_m ;;
     pressure_loss_pa <- (friction_factor * slender * (1000 * velocity ^ 2)) // 2 ;;
     pressure_loss_bar <- pressure_loss_pa // 100000.0 ;;
     assign (set_PressureLoss pressure_loss_bar)
   else
     assign (set_PressureLoss 0.0))%py.

(** ** [_ArchWaterPipe.onChanged] *)

Section OnChanged.

(** [ArchPipe._ArchPipe.onChanged] belongs to the host application: it
    is any computation on the object.  The host also calls [onChanged]
    again for each property a method assigns; those nested notifications
    are the host's and are not part of the method bodies below. *)
Variable ArchPipe_onChanged : string -> Py unit.

Definition hydraulic_props : list string :=
  ["FlowRate"; "Diameter"; "Length"; "PipeMaterial"; "RoughnessCoeff"]%string.

Definition onChanged (prop : string) : Py unit :=
  (ArchPipe_onChanged prop ;;;
   (if String.eqb prop "PipeMaterial" then updateMaterialProperties else ret tt) ;;;
   if existsb (String.eqb prop) hydraulic_props then calculateHydraulics else ret tt)%py.

End OnChanged.

(** ** The quantities of the specification *)

Module Spec.

(** L/min to m^3/s, and mm to m. *)
Definition flow_m3s (o : WaterPipe) : R := FlowRate o / 60000.
Definition diameter_m (o : WaterPipe) : R := Diameter o / 1000.
Definition length_m (o : WaterPipe) : R := Length o / 1000.

(** A = pi (d/2)^2 *)
Definition area (o : WaterPipe) : R := PI * (diameter_m o / 2) ^ 2.

(** v = Q / A *)
Definition velocity (o : WaterPipe) : R := flow_m3s o / area o.

(** Re = v d / nu, nu = 1.004e-6 m^2/s *)
Definition reynolds (o : WaterPipe) : R := velocity o * diameter_m o / 1.004e-6.

(** The argument of the logarithm in the friction factor. *)
Definition log_arg (o : WaterPipe) : R :=
  RoughnessCoeff o / (3.7 * diameter_m o) + 5.74 / Rpower (reynolds o) 0.9.

(** f = 0.25 / (log10 (roughness/(3.7 d) + 5.74/Re^0.9))^2 *)
Definition friction_factor (o : WaterPipe) : R := 0.25 / (log10 (log_arg o)) ^ 2.

(** Delta P = f (L/d) (rho v^2) / 2, rho = 1000, converted to bar. *)
Definition pressure_loss_bar (o : WaterPipe) : R :=
  friction_factor o * (length_m o / diameter_m o) * (1000 * velocity o ^ 2) / 2 / 100000.

End Spec.

(** ** The table of the specification *)

Module Table.

(** The table of the specification: copper 0.0015, PVC, PEX and HDPE
    0.0001, steel 0.045, cast iron 0.25, anything else 0.0015. *)
Definition roughness (material : string) : R :=
  if String.eqb material "Copper" then 0.0015
  else if String.eqb material "PVC" then 0.0001
  else if String.eqb material "PEX" then 0.0001
  else if String.eqb material "HDPE" then 0.0001
  else if String.eqb material "Steel" then 0.045
  else if String.eqb material "Cast Iron" then 0.25
  else 0.0015.

Definition known : list string :=
  ["Copper"; "PVC"; "PEX"; "HDPE"; "Steel"; "Cast Iron"]%string.

End Table.

(** The object once [obj.Velocity = velocity] has run. *)
Definition after_velocity (o : WaterPipe) : WaterPipe :=
  set_Velocity (Spec.velocity o) o.

(** ** Pipes used as concrete inputs *)

(** 10 L/min through a 15 mm copper pipe of 1 m, nothing computed yet. *)
Definition pipe_copper : WaterPipe :=
  mkWaterPipe 10 15 1000 "Copper" 0.0015 0 0.

(** The same pipe after the flow is set back to 0, with the values of an
    earlier calculation still stored. *)
Definition pipe_no_flow : WaterPipe :=
  mkWaterPipe 0 15 1000 "Copper" 0.0015 1 0.03.

(** A pipe whose diameter is 0, with stored values. *)
Definition pipe_no_diameter : WaterPipe :=
  mkWaterPipe 10 0 1000 "Copper" 0.0015 1 0.03.

(** Flow entered with the wrong sign. *)
Definition pipe_reverse_flow : WaterPipe :=
  mkWaterPipe (-10) 15 1000 "Copper" 0.0015 1 0.03.

(** A contrived negative roughness. *)
Definition pipe_negative_roughness : WaterPipe :=
  mkWaterPipe 10 15 1000 "Copper" (-1) 0 0.

(** A steel pipe whose roughness the user had set to 0.5 by hand. *)
Definition pipe_steel_override : WaterPipe :=
  mkWaterPipe 10 15 1000 "Steel" 0.5 0 0.

(** The roughness at which the argument of the logarithm is exactly 1 for
    the flow and diameter of [o]. *)
Definition critical_roughness (o : WaterPipe) : R :=
  3.7 * Spec.diameter_m o * (1 - 5.74 / Rpower (Spec.reynolds o) 0.9).

(** 10 L/min through 15 mm over 1 m, with that roughness (about 0.0554). *)
Definition pipe_critical_roughness : WaterPipe :=
  set_RoughnessCoeff (critical_roughness pipe_copper) pipe_copper.

(** The statement of C2 at one object. *)
Definition pressure_loss_claim (o : WaterPipe) : Prop :=
  FlowRate o <> 0 -> Diameter o <> 0 ->
  (0 < Spec.reynolds o ->
   PressureLoss (final (calculateHydraulics o)) = Spec.pressure_loss_bar o)
  /\ (Spec.reynolds o <= 0 ->
      PressureLoss (final (calculateHydraulics o)) = 0).

(** ** [_ArchSanitaryFixture]: defaults by fixture type *)

Module Fixture.

(** The properties [updateFixtureDefaults] reads or writes;
    [InstallationHeight] is in millimetres. *)
Record SanitaryFixture : Type := mkSanitaryFixture {
  FixtureType : string;
  FixtureUnits : R;
  FlowRate : R;
  InstallationHeight : R
}.

Definition set_FlowRate (x : R) (o : SanitaryFixture) : SanitaryFixture :=
  mkSanitaryFixture (FixtureType o) (FixtureUnits o) x (InstallationHeight o).

Definition set_FixtureUnits (x : R) (o : SanitaryFixture) : SanitaryFixture :=
  mkSanitaryFixture (FixtureType o) x (FlowRate o) (InstallationHeight o).

Definition set_InstallationHeight (x : R) (o : SanitaryFixture) : SanitaryFixture :=
  mkSanitaryFixture (FixtureType o) (FixtureUnits o) (FlowRate o) x.

(** One row of the table: [{"FlowRate": f, "FixtureUnits": u,
    "InstallationHeight": h}]. *)
Definition row (f u h : R) : gmap string R :=
  <["FlowRate" := f]> (<["FixtureUnits" := u]> (<["InstallationHeight" := h]> ∅)).

Definition fixture_defaults : gmap string (gmap string R) :=
  <["Sink" := row 6.0 1.5 850]> (
  <["Wash Hand Basin" := row 4.0 1.0 800]> (
  <["Toilet Pan" := row 0.0 4.0 400]> (
  <["Urinal" := row 0.0 2.0 600]> (
  <["Bath" := row 12.0 3.0 0]> (
  <["Shower" := row 9.0 2.0 2100]> (
  <["Bidet" := row 4.0 1.0 400]> ∅)))))).

Definition updateFixtureDefaults (obj : SanitaryFixture) : SanitaryFixture :=
  let defaults := dict_get fixture_defaults (FixtureType obj) ∅ in
  let obj := set_FlowRate (dict_get defaults "FlowRate" 6.0) obj in
  let obj := set_FixtureUnits (dict_get defaults "FixtureUnits" 1.0) obj in
  set_InstallationHeight (dict_get defaults "InstallationHeight" 850) obj.


Definition known_types : list string :=
  ["Sink"; "Wash Hand Basin"; "Toilet Pan"; "Urinal"; "Bath"; "Shower"; "Bidet"]%string.

End Fixture.

(** ** [_ViewProviderWaterPipe]: colour by system type *)

Module ViewProvider.

(** An RGB colour, each component a float. *)
Definition color : Type := (R * R * R)%type.

(** The document object's [SystemType] and the two colours of its
    [ViewObject]. *)
Record PipeView : Type := mkPipeView {
  SystemType : string;
  LineColor : color;
  ShapeColor : color
}.

Definition color_map : gmap string color :=
  <["Cold Water Supply" := (0.0, 0.0, 1.0)]> (
  <["Hot Water Supply" := (1.0, 0.0, 0.0)]> (
  <["Waste Water" := (0.5, 0.3, 0.1)]> (
  <["Rain Water" := (0.0, 1.0, 1.0)]> (
  <["Gas" := (1.0, 1.0, 0.0)]> ∅)))).

(** [GuiUp] is [FreeCAD.GuiUp]. *)
Definition updateSystemColor (GuiUp : bool) (obj : PipeView) : PipeView :=
  if GuiUp then
    let color := dict_get color_map (SystemType obj) (0.7, 0.7, 0.7) in
    mkPipeView (SystemType obj) color color
  else obj.

Definition known_systems : list string :=
  ["Cold Water Supply"; "Hot Water Supply"; "Waste Water"; "Rain Water"; "Gas"]%string.

End ViewProvider.

(** ** [Arch_MEPHydraulicCalculation.Activated] (bimcommands/BimMEP.py) *)

(** ["\n"] *)
Definition newline : string :=
  String (Ascii.Ascii false true false true false false false false) EmptyString.

Module HydraulicCommand.

(** A selected document object, as far as the command looks at it:
    [proxy_type] is [getattr(obj.Proxy, 'Type', None) if hasattr(obj,
    'Proxy') else None], [has_calculateHydraulics] is [hasattr(obj.Proxy,
    'calculateHydraulics')], and [props] are the properties a water pipe
    has (never read for another object). *)
Record DocObject : Type := mkDocObject {
  proxy_type : option string;
  has_calculateHydraulics : bool;
  props : WaterPipe
}.

Definition with_props (p : WaterPipe) (obj : DocObject) : DocObject :=
  mkDocObject (proxy_type obj) (has_calculateHydraulics obj) p.

(** What goes to the console.  The two totals are printed through
    [:.2f] and [:.4f]; here the number itself is kept.  [translate] gives
    back a text in the user's language; here it is the text of the
    source. *)
Inductive console_line : Type :=
| PrintError (msg : string)
| PrintCompleted (pipes : nat)
| PrintTotalFlow (litres_per_minute : R)
| PrintTotalPressureLoss (bar : R).

(** The three accumulators of the loop. *)
Record tally : Type := mkTally {
  calculated_pipes : list DocObject;
  total_flow : R;
  total_pressure_loss : R
}.

Inductive loop_result : Type :=
| LoopDone (selection : list DocObject) (t : tally)
| LoopRaised (e : exn) (selection : list DocObject).

(** [obj_type == "WaterPipe"] and then [hasattr(obj.Proxy,
    'calculateHydraulics')]. *)
Definition is_water_pipe (obj : DocObject) : bool :=
  match proxy_type obj with
  | Some t => String.eqb t "WaterPipe" && has_calculateHydraulics obj
  | None => false
  end.

Definition keep (obj : DocObject) (r : loop_result) : loop_result :=
  match r with
  | LoopDone rest t => LoopDone (obj :: rest) t
  | LoopRaised e rest => LoopRaised e (obj :: rest)
  end.

(** The body of the loop once [calculateHydraulics] has returned:
    [calculated_pipes.append(obj)], [total_flow += obj.FlowRate],
    [total_pressure_loss += obj.PressureLoss]. *)
Definition count_pipe (obj : DocObject) (t : tally) : tally :=
  mkTally (calculated_pipes t ++ [obj])
          (total_flow t + FlowRate (props obj))
          (total_pressure_loss t + PressureLoss (props obj)).

(** [for obj in s: ...], with the selection as the loop leaves it. *)
Fixpoint loop (s : list DocObject) (t : tally) : loop_result :=
  match s with
  | [] => LoopDone [] t
  | obj :: rest =>
      if is_water_pipe obj then
        match calculateHydraulics (props obj) with
        | Returned _ p =>
            let obj := with_props p obj in
            keep obj (loop rest (count_pipe obj t))
        | Raised e p => LoopRaised e (with_props p obj :: rest)
        end
      else keep obj (loop rest t)
  end.

Inductive activated : Type :=
| Finished (console : list console_line) (selection : list DocObject)
| Escaped (e : exn) (selection : list DocObject).

Definition Activated (s : list DocObject) : activated :=
  match s with
  | [] => Finished [PrintError ("Please select water pipes for calculation" ++ newline)] []
  | _ =>
      match loop s (mkTally [] 0.0 0.0) with
      | LoopDone s' t =>
          match calculated_pipes t with
          | _ :: _ =>
              Finished [PrintCompleted (length (calculated_pipes t));
                        PrintTotalFlow (total_flow t);
                        PrintTotalPressureLoss (total_pressure_loss t)] s'
          | [] => Finished [PrintError ("No water pipes selected" ++ newline)] s'
          end
      | LoopRaised e s' => Escaped e s'
      end
  end.

(** The selection the command leaves behind. *)
Definition selection_after (r : activated) : list DocObject :=
  match r with Finished _ s => s | Escaped _ s => s end.

(** A selected object after a run in which its own call, if any, returned
    or raised. *)
Definition recalculated (obj : DocObject) : DocObject :=
  if is_water_pipe obj
  then with_props (final (calculateHydraulics (props obj))) obj
  else obj.

(** The water pipes of a selection, and the sum of one of their
    properties. *)
Definition water_pipes (s : list DocObject) : list DocObject :=
  List.filter is_water_pipe s.

Definition sum_of (f : WaterPipe -> R) (s : list DocObject) : R :=
  fold_right (fun obj acc => f (props obj) + acc) 0 (water_pipes s).

(** The call on this object, if one is made, returns. *)
Definition call_returns (obj : DocObject) : Prop :=
  is_water_pipe obj = true -> completes (calculateHydraulics (props obj)).

End HydraulicCommand.

(** ** Selections used as concrete inputs *)



(** A valve: its proxy has another [Type] and no [calculateHydraulics]. *)
Definition selected_valve : HydraulicCommand.DocObject :=
  HydraulicCommand.mkDocObject (Some "Valve"%string) false pipe_no_diameter.

(** ** The creation and network commands (bimcommands/BimMEP.py) *)

(** What a command does to the application, in order (transaction names
    and messages go through [translate]; here they are the texts of the
    source):
    [FreeCAD.Console.PrintError], [ActiveDocument.openTransaction],
    [FreeCADGui.addModule], [FreeCADGui.doCommand],
    [ActiveDocument.commitTransaction], [ActiveDocument.recompute]. *)
Inductive gui_action : Type :=
| ConsoleError (msg : string)
| OpenTransaction (name : string)
| AddModule (name : string)
| DoCommand (cmd : string)
| CommitTransaction
| Recompute.

Module CreateCommand.

(** A selected object as the creation commands see it: its [Name],
    [hasattr(obj, 'Shape')] and [len(obj.Shape.Wires)]. *)
Record Selected : Type := mkSelected {
  Name : string;
  has_Shape : bool;
  wires : nat
}.

(** One creation inside its own transaction; [call] is the text passed to
    the first [doCommand]. *)
Definition create (transaction call : string) : list gui_action :=
  [OpenTransaction transaction; AddModule "Arch"; AddModule "Draft";
   DoCommand call; DoCommand "Draft.autogroup(obj)"; CommitTransaction].

(** The common shape of the three [Activated] methods: [accepts] is the
    test made on each selected object and [maker] the name of the [Arch]
    function. *)
Definition activate (transaction maker : string) (accepts : Selected -> bool)
           (s : list Selected) : list gui_action :=
  match s with
  | [] =>
      create transaction ("obj = Arch." ++ maker ++ "()") ++ [Recompute]
  | _ =>
      flat_map (fun obj =>
                  if accepts obj
                  then create transaction
                         ("obj = Arch." ++ maker ++ "(FreeCAD.ActiveDocument."
                          ++ Name obj ++ ")")
                  else []) s
      ++ [Recompute]
  end.

(** [Arch_WaterPipe.Activated]: a shape with exactly one wire. *)
Definition Arch_WaterPipe_Activated : list Selected -> list gui_action :=
  activate "Create Water Pipe" "makeWaterPipe"
           (fun obj => has_Shape obj && Nat.eqb (wires obj) 1).



(** Transactions open at the end of a trace that started with [n] open. *)
Fixpoint open_transactions (n : nat) (trace : list gui_action) : option nat :=
  match trace with
  | [] => Some n
  | OpenTransaction _ :: rest => open_transactions (S n) rest
  | CommitTransaction :: rest =>
      match n with
      | O => None
      | S m => open_transactions m rest
      end
  | _ :: rest => open_transactions n rest
  end.

Definition is_open (a : gui_action) : bool :=
  match a with OpenTransaction _ => true | _ => false end.





End CreateCommand.

Module NetworkCommand.

(** A selected object as [Arch_MEPNetwork.Activated] sees it:
    [proxy_type] is [getattr(obj.Proxy, 'Type', None) if hasattr(obj,
    'Proxy') else None] and [draft_type] is [Draft.getType(obj)]. *)
Record Selected : Type := mkSelected {
  Name : string;
  proxy_type : option string;
  draft_type : string
}.

(** [obj_type == name] *)
Definition type_is (obj : Selected) (name : string) : bool :=
  match proxy_type obj with
  | Some t => String.eqb t name
  | None => false
  end.

Record classes : Type := mkClasses {
  pipes : list Selected;
  fixtures : list Selected;
  valves : list Selected
}.

(** The classification loop, appending to the three lists. *)
Fixpoint classify (s : list Selected) (c : classes) : classes :=
  match s with
  | [] => c
  | obj :: rest =>
      if type_is obj "WaterPipe" || String.eqb (draft_type obj) "Pipe" then
        classify rest (mkClasses (pipes c ++ [obj]) (fixtures c) (valves c))
      else if type_is obj "SanitaryFixture" then
        classify rest (mkClasses (pipes c) (fixtures c ++ [obj]) (valves c))
      else if type_is obj "Valve" then
        classify rest (mkClasses (pipes c) (fixtures c) (valves c ++ [obj]))
      else classify rest c
  end.

(** ["[" + ",".join([f"FreeCAD.ActiveDocument.{obj.Name}" for obj in l])
    + "]"] *)
Definition names (l : list Selected) : string :=
  ("[" ++ String.concat "," (map (fun obj => "FreeCAD.ActiveDocument." ++ Name obj) l)
   ++ "]")%string.

Definition is_nil {A : Type} (l : list A) : bool :=
  match l with [] => true | _ => false end.

Definition cmd_parts (c : classes) : list string :=
  (if is_nil (pipes c) then [] else [("pipes=" ++ names (pipes c))%string])
  ++ (if is_nil (fixtures c) then [] else [("fixtures=" ++ names (fixtures c))%string])
  ++ (if is_nil (valves c) then [] else [("valves=" ++ names (valves c))%string]).

Definition Activated (s : list Selected) : list gui_action :=
  match s with
  | [] => [ConsoleError ("Please select MEP objects to create network" ++ newline)]
  | _ =>
      let c := classify s (mkClasses [] [] []) in
      if is_nil (pipes c) && is_nil (fixtures c) && is_nil (valves c) then
        [ConsoleError ("No valid MEP objects selected" ++ newline)]
      else
        [OpenTransaction "Create MEP Network"; AddModule "Arch";
         DoCommand ("obj = Arch.makeMEPNetwork("
                    ++ String.concat "," (cmd_parts c) ++ ")")%string;
         CommitTransaction; Recompute]
  end.

(** The three classes as tests on one object. *)
Definition is_pipe (obj : Selected) : bool :=
  type_is obj "WaterPipe" || String.eqb (draft_type obj) "Pipe".

Definition is_fixture (obj : Selected) : bool :=
  negb (is_pipe obj) && type_is obj "SanitaryFixture".

Definition is_valve (obj : Selected) : bool :=
  negb (is_pipe obj) && negb (type_is obj "SanitaryFixture") && type_is obj "Valve".

End NetworkCommand.

(** ** Property schemas: [setMEPProperties], [setFixtureProperties],
       [setValveProperties] *)

Module Schema.

(** What a property holds: nothing assigned yet (the host's default for
    its type), a number, a boolean, or an enumeration with its choices. *)
Inductive value : Type :=
| Unset
| Number (x : R)
| Boolean (b : bool)
| Enumeration (choices : list string) (current : string).

(** A property as [obj.addProperty(type, name, group, ...)] and the
    assignments that follow leave it. *)
Record property : Type := mkProperty {
  ptype : string;
  group : string;
  pvalue : value
}.

(** The document object: its properties by name, and the names put in
    read-only editor mode by [obj.setEditorMode(name, 1)]. *)
Record DocumentObject : Type := mkDocumentObject {
  properties : gmap string property;
  read_only : gset string
}.

(** One guarded block [if not name in pl: obj.addProperty(...); ...]. *)
Record block : Type := mkBlock {
  name : string;
  added : property;
  editor_read_only : bool
}.

Definition run_block (pl : gset string) (b : block) (obj : DocumentObject)
  : DocumentObject :=
  if decide (name b ∈ pl) then obj
  else mkDocumentObject
         (<[name b := added b]> (properties obj))
         (if editor_read_only b then {[name b]} ∪ read_only obj else read_only obj).

(** [pl = obj.PropertiesList], read once, then the blocks in order. *)
Definition run_blocks (blocks : list block) (obj : DocumentObject) : DocumentObject :=
  let pl := dom (properties obj) in
  fold_left (fun obj b => run_block pl b obj) blocks obj.

Definition float_block (n g : string) (v : value) (ro : bool) : block :=
  mkBlock n (mkProperty "App::PropertyFloat" g v) ro.

Definition pipe_blocks : list block :=
  [ float_block "FlowRate" "MEP Hydraulics" (Number 0.0) false;
    float_block "Pressure" "MEP Hydraulics" (Number 2.5) false;
    float_block "PressureLoss" "MEP Hydraulics" Unset true;
    float_block "Velocity" "MEP Hydraulics" Unset true;
    mkBlock "SystemType"
      (mkProperty "App::PropertyEnumeration" "MEP System"
         (Enumeration ["Cold Water Supply"; "Hot Water Supply"; "Waste Water";
                       "Rain Water"; "Gas"] "Cold Water Supply")) false;
    mkBlock "PipeMaterial"
      (mkProperty "App::PropertyEnumeration" "MEP System"
         (Enumeration ["Copper"; "PVC"; "PEX"; "Steel"; "Cast Iron"; "HDPE"]
                      "Copper")) false;
    float_block "RoughnessCoeff" "MEP System" (Number 0.0015) false;
    mkBlock "InsulationThickness"
      (mkProperty "App::PropertyLength" "MEP System" Unset) false;
    mkBlock "ConnectedFixtures"
      (mkProperty "App::PropertyLinkList" "MEP Connections" Unset) false;
    mkBlock "ConnectedValves"
      (mkProperty "App::PropertyLinkList" "MEP Connections" Unset) false ]%string.

Definition fixture_blocks : list block :=
  [ mkBlock "FixtureType"
      (mkProperty "App::PropertyEnumeration" "Fixture"
         (Enumeration ["Sink"; "Wash Hand Basin"; "Toilet Pan"; "Urinal"; "Bath";
                       "Shower"; "Bidet"] "Sink")) false;
    float_block "FixtureUnits" "Fixture" (Number 1.0) false;
    float_block "FlowRate" "Fixture" (Number 6.0) false;
    mkBlock "ColdWaterConnection"
      (mkProperty "App::PropertyLink" "Connections" Unset) false;
    mkBlock "HotWaterConnection"
      (mkProperty "App::PropertyLink" "Connections" Unset) false;
    mkBlock "DrainConnection"
      (mkProperty "App::PropertyLink" "Connections" Unset) false;
    mkBlock "WallMounted"
      (mkProperty "App::PropertyBool" "Installation" (Boolean true)) false;
    mkBlock "InstallationHeight"
      (mkProperty "App::PropertyLength" "Installation" (Number 850)) false ]%string.

Definition valve_blocks : list block :=
  [ mkBlock "ValveType"
      (mkProperty "App::PropertyEnumeration" "Valve"
         (Enumeration ["Faucet"; "Stop Cock"; "Check Valve"; "Pressure Relief";
                       "Mixing Valve"; "Gas Tap"; "Isolating"] "Faucet")) false;
    mkBlock "NominalDiameter"
      (mkProperty "App::PropertyLength" "Valve" (Number 15)) false;
    float_block "WorkingPressure" "Valve" (Number 10.0) false;
    float_block "FlowCoefficient" "Valve" (Number 1.0) false;
    mkBlock "IsMotorized"
      (mkProperty "App::PropertyBool" "Control" (Boolean false)) false;
    mkBlock "ControlSignal"
      (mkProperty "App::PropertyEnumeration" "Control"
         (Enumeration ["Manual"; "24V DC"; "230V AC"; "0-10V"; "4-20mA"]
                      "Manual")) false;
    mkBlock "InletConnection"
      (mkProperty "App::PropertyLink" "Connections" Unset) false;
    mkBlock "OutletConnection"
      (mkProperty "App::PropertyLink" "Connections" Unset) false ]%string.

(** Each method returns the object and the [Type] it gives the proxy
    ([self.Type = ...]). *)
Definition setMEPProperties (obj : DocumentObject) : DocumentObject * string :=
  (run_blocks pipe_blocks obj, "WaterPipe"%string).

Definition setFixtureProperties (obj : DocumentObject) : DocumentObject * string :=
  (run_blocks fixture_blocks obj, "SanitaryFixture"%string).

Definition setValveProperties (obj : DocumentObject) : DocumentObject * string :=
  (run_blocks valve_blocks obj, "Valve"%string).

(** The block of a name, if the list has one. *)
Definition block_of (blocks : list block) (n : string) : option block :=
  List.find (fun b => String.eqb (name b) n) blocks.

Definition names_of (blocks : list block) : list string := map name blocks.

(** The choices of the enumeration a block list adds under a name. *)
Definition choices_of (blocks : list block) (n : string) : list string :=
  match block_of blocks n with
  | Some b => match pvalue (added b) with
              | Enumeration choices _ => choices
              | _ => []
              end
  | None => []
  end.

End Schema.

(** ** The hydraulics on IEEE 754 doubles *)

(** Python's [float] is the binary64 format.  This second model of
    [calculateHydraulics] computes on it: every operation rounds, a
    quotient or a square can overflow or underflow, [-0.0], the infinities
    and NaN are values, and [**] can raise [OverflowError].  It is the
    model for the statements in which rounding or the range of a double
    decides the answer.

    The C library.  After its own special cases Python hands [x ** y] and
    [math.log10(x)] to the platform's [pow] and [log10].  These two
    functions are parameters here, so a theorem of this part holds
    whatever the C library returns. *)

Module Binary64.

#[local] Set Warnings "-inexact-float".
Local Open Scope float_scope.

Record WaterPipe : Type := mkWaterPipe {
  FlowRate : float;
  Diameter : float;
  Length : float;
  PipeMaterial : string;
  RoughnessCoeff : float;
  Velocity : float;
  PressureLoss : float
}.

Definition set_Velocity (x : float) (o : WaterPipe) : WaterPipe :=
  mkWaterPipe (FlowRate o) (Diameter o) (Length o) (PipeMaterial o)
              (RoughnessCoeff o) x (PressureLoss o).

Definition set_PressureLoss (x : float) (o : WaterPipe) : WaterPipe :=
  mkWaterPipe (FlowRate o) (Diameter o) (Length o) (PipeMaterial o)
              (RoughnessCoeff o) (Velocity o) x.

(** [TypeError] is what [math.log10] raises on a complex number. *)
Inductive exn : Type := ZeroDivisionError | ValueError | OverflowError | TypeError.

(** *** Expressions: a value, or an exception *)

Inductive result (A : Type) : Type :=
| Value (a : A)
| Raises (e : exn).
Arguments Value {A} a.
Arguments Raises {A} e.

Definition and_then {A B : Type} (r : result A) (k : A -> result B) : result B :=
  match r with
  | Value a => k a
  | Raises e => Raises e
  end.

Declare Scope expr_scope.
Delimit Scope expr_scope with expr.
Notation "x <- c ;; k" := (and_then c (fun x => k))
  (at level 100, c at next level, right associativity) : expr_scope.

(** [x / y]: [ZeroDivisionError] when [y == 0] ([0.0] or [-0.0]); an
    overflow gives an infinity and raises nothing. *)
Definition float_div (x y : float) : result float :=
  if y =? 0 then Raises ZeroDivisionError else Value (x / y).

Notation "x // y" := (float_div x y) (at level 40, left associativity) : expr_scope.

(** [math.pi] *)
Definition math_pi : float := 0x1.921fb54442d18p+1.

(** [y == floor(y)] for a finite [y]: from 2^52 on every double is an
    integer, and below, adding 2^52 rounds to an integer. *)
Definition is_integer (y : float) : bool :=
  let a := abs y in
  (0x1p52 <=? a) || ((a + 0x1p52) - 0x1p52 =? a).

(** [fmod(fabs(y), 2.0) == 1.0] *)
Definition is_odd_integer (y : float) : bool :=
  is_integer y && negb (is_integer (y / 2)).

(** *** Statements: the object afterwards, returned or raised *)

Inductive outcome (A : Type) : Type :=
| Returned (a : A) (o : WaterPipe)
| Raised (e : exn) (o : WaterPipe).
Arguments Returned {A} a o.
Arguments Raised {A} e o.

Definition final {A : Type} (r : outcome A) : WaterPipe :=
  match r with Returned _ o => o | Raised _ o => o end.

Definition Py (A : Type) : Type := WaterPipe -> outcome A.

Definition ret {A : Type} (a : A) : Py A := fun o => Returned a o.

Definition bind {A B : Type} (c : Py A) (k : A -> Py B) : Py B :=
  fun o => match c o with
           | Returned a o' => k a o'
           | Raised e o' => Raised e o'
           end.

Definition get : Py WaterPipe := fun o => Returned o o.

Definition assign (f : WaterPipe -> WaterPipe) : Py unit :=
  fun o => Returned tt (f o).

(** An expression inside a statement: its exception, if any, leaves the
    object as it is at that point. *)
Definition eval {A : Type} (r : result A) : Py A :=
  fun o => match r with
           | Value a => Returned a o
           | Raises e => Raised e o
           end.

Declare Scope py64_scope.
Delimit Scope py64_scope with py64.
Notation "x <- c ;; k" := (bind c (fun x => k))
  (at level 100, c at next level, right associativity) : py64_scope.
Notation "c ;;; k" := (bind c (fun _ => k))
  (at level 100, right associativity) : py64_scope.
Notation "x <~ e ;; k" := (bind (eval e%expr) (fun x => k))
  (at level 100, e at next level, right associativity) : py64_scope.

Section Libm.

Variable pow : float -> float -> float.
Variable log10 : float -> float.

(** [iv ** iw] on floats (CPython's [float_pow]).  The special cases come
    first; what is left, a finite positive base other than 1 with a finite
    exponent other than 0, goes to the C library, and an infinite result
    there is an [OverflowError] (an underflow to 0 is not an error).  A
    negative base with an exponent that is not an integer gives a complex
    number in Python; the model has floats only and gives [TypeError]
    there, the exception [math.log10] raises on a complex number. *)
Definition float_pow (iv iw : float) : result float :=
  if iw =? 0 then Value 1
  else if is_nan iv then Value iv
  else if is_nan iw then Value (if iv =? 1 then 1 else iw)
  else if is_infinity iw then
    if abs iv =? 1 then Value 1
    else if Bool.eqb (0 <? iw) (1 <? abs iv) then Value (abs iw)
    else Value 0
  else if is_infinity iv then
    if 0 <? iw then Value (if is_odd_integer iw then iv else abs iv)
    else Value (if is_odd_integer iw && (iv <? 0) then -0 else 0)
  else if iv =? 0 then
    if iw <? 0 then Raises ZeroDivisionError
    else Value (if is_odd_integer iw then iv else 0)
  else if (iv <? 0) && negb (is_integer iw) then Raises TypeError
  else
    let negate_result := (iv <? 0) && is_odd_integer iw in
    if abs iv =? 1 then Value (if negate_result then -1 else 1)
    else
      let ix := pow (abs iv) iw in
      let ix := if negate_result then - ix else ix in
      if is_infinity ix then Raises OverflowError else Value ix.

(** [math.log10(x)]: NaN and [+inf] are passed through; a finite argument
    must be positive, and a NaN or an infinity from the C library is a
    "math domain error" as well. *)
Definition math_log10 (x : float) : result float :=
  if is_nan x then Value x
  else if is_infinity x then
    if 0 <? x then Value x else Raises ValueError
  else if 0 <? x then
    let r := log10 x in
    if is_nan r || is_infinity r then Raises ValueError else Value r
  else Raises ValueError.

(** [_ArchWaterPipe.calculateHydraulics], statement by statement and, in
    the friction factor, operation by operation in Python's order of
    evaluation.  The integer literals [0], [2] and [1000] meet a float in
    every operation and are converted to it. *)
Definition calculateHydraulics : Py unit :=
  (obj <- get ;;
   if (FlowRate obj =? 0) || (Diameter obj =? 0) then ret tt else
   flow_m3s <~ FlowRate obj // 60000.0 ;;
   diameter_m <~ Diameter obj // 1000.0 ;;
   length_m <~ Length obj // 1000.0 ;;
   radius <~ diameter_m // 2 ;;
   square <~ float_pow radius 2 ;;
   let area := math_pi * square in
   velocity <~ (if 0 <? area then flow_m3s // area else Value 0) ;;
   assign (set_Velocity velocity) ;;;
   reynolds <~ (velocity * diameter_m) // 1.004e-6 ;;
   if 0 <? reynolds then
     obj <- get ;;
     rel_rough <~ RoughnessCoeff obj // (3.7 * diameter_m) ;;
     power <~ float_pow reynolds 0.9 ;;
     visc_term <~ 5.74 // power ;;
     lg <~ math_log10 (rel_rough + visc_term) ;;
     lg2 <~ float_pow lg 2 ;;
     friction_factor <~ 0.25 // lg2 ;;
     slender <~ length_m // diameter_m ;;
     v2 <~ float_pow velocity 2 ;;
     pressure_loss_pa <~ (friction_factor * slender * (1000 * v2)) // 2 ;;
     pressure_loss_bar <~ pressure_loss_pa // 100000.0 ;;
     assign (set_PressureLoss pressure_loss_bar)
   else
     assign (set_PressureLoss 0.0))%py64.

(** *** The quantities of the specification, in double arithmetic *)

(** A = pi (d/2)^2 with d = Diameter / 1000, as Python evaluates
    [math.pi * ((Diameter / 1000.0) / 2) ** 2]. *)
Definition area (o : WaterPipe) : result float :=
  (square <- float_pow (Diameter o / 1000.0 / 2) 2 ;;
   Value (math_pi * square))%expr.

(** Re = v d / nu for a velocity [v]. *)
Definition reynolds (v : float) (o : WaterPipe) : float :=
  v * (Diameter o / 1000.0) / 1.004e-6.

(** f = 0.25 / (log10 (roughness/(3.7 d) + 5.74/Re^0.9))^2 *)
Definition friction_factor (v : float) (o : WaterPipe) : result float :=
  (rel_rough <- RoughnessCoeff o // (3.7 * (Diameter o / 1000.0)) ;;
   power <- float_pow (reynolds v o) 0.9 ;;
   visc_term <- 5.74 // power ;;
   lg <- math_log10 (rel_rough + visc_term) ;;
   lg2 <- float_pow lg 2 ;;
   0.25 // lg2)%expr.

(** Delta P = f (L/d) (1000 v^2) / 2 / 100000, in bar. *)
Definition pressure_loss_bar (v : float) (o : WaterPipe) : result float :=
  (f <- friction_factor v o ;;
   slender <- (Length o / 1000.0) // (Diameter o / 1000.0) ;;
   v2 <- float_pow v 2 ;;
   Value (f * slender * (1000 * v2) / 2 / 100000.0))%expr.

(** The statement of C1 at one object: the stored Velocity is the quotient
    of FlowRate / 60000 by the area. *)
Definition velocity_claim (o : WaterPipe) : Prop :=
  (FlowRate o =? 0) = false -> (Diameter o =? 0) = false ->
  exists a, area o = Value a
            /\ Velocity (final (calculateHydraulics o)) = FlowRate o / 60000.0 / a.

(** The statement of C9 at one object. *)
Definition negative_flow_claim (o : WaterPipe) : Prop :=
  (FlowRate o <? 0) = true -> (0 <? Diameter o) = true ->
  (Velocity (final (calculateHydraulics o)) <? 0) = true
  /\ PressureLoss (final (calculateHydraulics o)) = 0.

End Libm.

(** *** Concrete inputs *)

(** 10 L/min through a 15 mm copper pipe of 1 m, nothing computed yet. *)
Definition pipe_copper : WaterPipe :=
  mkWaterPipe 10 15 1000 "Copper" 0.0015 0 0.

(** The same with the flow entered with the wrong sign, and stored values. *)
Definition pipe_reverse_flow : WaterPipe :=
  mkWaterPipe (-10) 15 1000 "Copper" 0.0015 1 0.03.

(** A diameter of 5e-324 mm, the smallest positive double: in metres it
    rounds to 0.0. *)
Definition pipe_vanishing_diameter : WaterPipe :=
  mkWaterPipe 10 0x1p-1074 1000 "Copper" 0.0015 1 0.03.

(** The same with a negative flow. *)
Definition pipe_vanishing_diameter_reverse : WaterPipe :=
  mkWaterPipe (-10) 0x1p-1074 1000 "Copper" 0.0015 1 0.03.

(** A flow of -5e-324 L/min through a pipe of 2 m diameter (the radius is
    1 m, which [**] squares without the C library): in m^3/s the flow
    rounds to -0.0. *)
Definition pipe_vanishing_reverse_flow : WaterPipe :=
  mkWaterPipe (-0x1p-1074) 2000 1000 "Copper" 0.0015 1 0.03.

(** A flow of -0.0, with the values of an earlier calculation stored. *)
Definition pipe_negative_zero_flow : WaterPipe :=
  mkWaterPipe (-0) 15 1000 "Copper" 0.0015 1 0.03.

(** A diameter of -0.0. *)
Definition pipe_negative_zero_diameter : WaterPipe :=
  mkWaterPipe 10 (-0) 1000 "Copper" 0.0015 1 0.03.

(** 1e308 L/min through the same pipe, perfectly smooth: the Reynolds
    number overflows to [+inf]. *)
Definition pipe_immense_flow : WaterPipe :=
  mkWaterPipe 1e308 2000 1000 "Copper" 0 1 0.03.

(** What glibc's [pow] and [log10] return at the arguments the
    calculation on [pipe_copper] reaches; any other argument is answered
    with NaN.  With them the model can be run on that pipe. *)
Definition sample_pow (x y : float) : float :=
  if (x =? 0x1.eb851eb851eb8p-8) && (y =? 2) then 0x1.d7dbf487fcb92p-15
  else if (x =? 0x1.b855f1d4147b0p+13) && (y =? 0.9) then 0x1.52c83b3326b7ep+12
  else if (x =? 0x1.8d2fccc001b80p+0) && (y =? 2) then 0x1.341ea4fc2bcbfp+1
  else if (x =? 0x1.e2e34c8933c04p-1) && (y =? 2) then 0x1.c76e5b02bc89cp-1
  else nan.

Definition sample_log10 (x : float) : float :=
  if x =? 0x1.cc29158c713b9p-6 then -0x1.8d2fccc001b80p+0 else nan.

End Binary64.

(** ** Basic facts on the operations *)

Lemma Reqb_true (x y : R) : x = y -> Reqb x y = true.
Proof. intros H. unfold Reqb. destruct (Req_dec_T x y); [reflexivity | contradiction]. Qed.

Lemma Reqb_false (x y : R) : x <> y -> Reqb x y = false.
Proof. intros H. unfold Reqb. destruct (Req_dec_T x y); [contradiction | reflexivity]. Qed.

Lemma Rgtb_true (x y : R) : y < x -> Rgtb x y = true.
Proof. intros H. unfold Rgtb. destruct (Rlt_dec y x); [reflexivity | contradiction]. Qed.

Lemma Rgtb_false (x y : R) : x <= y -> Rgtb x y = false.
Proof. intros H. unfold Rgtb. destruct (Rlt_dec y x); [lra | reflexivity]. Qed.

Lemma float_div_ok (x y : R) (o : WaterPipe) :
  y <> 0 -> float_div x y o = Returned (x / y) o.
Proof. intros H. unfold float_div. rewrite (Reqb_false _ _ H). reflexivity. Qed.

Lemma float_div_zero (x : R) (o : WaterPipe) :
  float_div x 0 o = Raised ZeroDivisionError o.
Proof. unfold float_div. rewrite Reqb_true; reflexivity. Qed.

Lemma math_log10_ok (x : R) (o : WaterPipe) :
  0 < x -> math_log10 x o = Returned (log10 x) o.
Proof. intros H. unfold math_log10. rewrite (Rgtb_true _ _ H). reflexivity. Qed.

Lemma math_log10_domain (x : R) (o : WaterPipe) :
  x <= 0 -> math_log10 x o = Raised ValueError o.
Proof. intros H. unfold math_log10. rewrite (Rgtb_false _ _ H). reflexivity. Qed.

Lemma bind_returned {A B : Type} (c : Py A) (k : A -> Py B) (o o' : WaterPipe) (a : A) :
  c o = Returned a o' -> bind c k o = k a o'.
Proof. intros H. unfold bind. rewrite H. reflexivity. Qed.

Lemma bind_raised {A B : Type} (c : Py A) (k : A -> Py B) (o o' : WaterPipe) (e : exn) :
  c o = Raised e o' -> bind c k o = Raised e o'.
Proof. intros H. unfold bind. rewrite H. reflexivity. Qed.

Lemma area_pos (o : WaterPipe) : Diameter o <> 0 -> 0 < Spec.area o.
Proof.
  intros H. unfold Spec.area, Spec.diameter_m.
  apply Rmult_lt_0_compat; [apply PI_RGT_0 |].
  destruct (Rdichotomy _ _ H) as [Hneg | Hpos]; simpl; nra.
Qed.

(** ** Stepping through a computation *)

Lemma bind_get {B : Type} (k : WaterPipe -> Py B) (o : WaterPipe) :
  bind get k o = k o o.
Proof. reflexivity. Qed.

Lemma bind_assign {B : Type} (f : WaterPipe -> WaterPipe) (k : unit -> Py B) (o : WaterPipe) :
  bind (assign f) k o = k tt (f o).
Proof. reflexivity. Qed.

Lemma bind_div_ok {B : Type} (x y : R) (k : R -> Py B) (o : WaterPipe) :
  y <> 0 -> bind (float_div x y) k o = k (x / y) o.
Proof. intros H. apply bind_returned, float_div_ok, H. Qed.

Lemma bind_div_zero {B : Type} (x y : R) (k : R -> Py B) (o : WaterPipe) :
  y = 0 -> bind (float_div x y) k o = Raised ZeroDivisionError o.
Proof. intros ->. apply bind_raised, float_div_zero. Qed.

Lemma bind_log10_ok {B : Type} (x : R) (k : R -> Py B) (o : WaterPipe) :
  0 < x -> bind (math_log10 x) k o = k (log10 x) o.
Proof. intros H. apply bind_returned, math_log10_ok, H. Qed.

Lemma bind_log10_domain {B : Type} (x : R) (k : R -> Py B) (o : WaterPipe) :
  x <= 0 -> bind (math_log10 x) k o = Raised ValueError o.
Proof. intros H. apply bind_raised, math_log10_domain, H. Qed.

(** The float literals of the source, as the numbers they denote. *)
Lemma lit_60000 : 60000.0 = 60000. Proof. lra. Qed.
Lemma lit_1000 : 1000.0 = 1000. Proof. lra. Qed.
Lemma lit_100000 : 100000.0 = 100000. Proof. lra. Qed.
Lemma lit_0 : 0.0 = 0. Proof. lra. Qed.

Lemma Rpower_pos (x y : R) : 0 < Rpower x y.
Proof. unfold Rpower. apply exp_pos. Qed.

Lemma diameter_m_nonzero (o : WaterPipe) : Diameter o <> 0 -> Spec.diameter_m o <> 0.
Proof. intros H E. apply H. unfold Spec.diameter_m in E. lra. Qed.

Ltac py_div := rewrite bind_div_ok by (try lra; auto); cbv beta.

(** Runs the method up to the test [reynolds > 0]. *)
Ltac to_reynolds_test o HQ HD :=
  unfold calculateHydraulics;
  rewrite lit_60000, !lit_1000, lit_100000, lit_0;
  rewrite bind_get;
  rewrite (Reqb_false _ _ HQ), (Reqb_false _ _ HD); cbn [orb]; cbv iota;
  do 4 py_div;
  unfold math_pi;
  change (PI * (Diameter o / 1000 / 2) ^ 2) with (Spec.area o);
  rewrite (Rgtb_true _ _ (area_pos o HD));
  rewrite bind_div_ok by (apply Rgt_not_eq, (area_pos o HD)); cbv beta;
  rewrite bind_assign;
  change (FlowRate o / 60000 / Spec.area o) with (Spec.velocity o);
  py_div;
  change (Spec.velocity o * (Diameter o / 1000) / 1.004e-6) with (Spec.reynolds o);
  fold (after_velocity o).

(** *** The five ways a call ends *)

Lemma calculateHydraulics_noop (o : WaterPipe) :
  FlowRate o = 0 \/ Diameter o = 0 -> calculateHydraulics o = Returned tt o.
Proof.
  intros H. unfold calculateHydraulics. rewrite bind_get.
  destruct H as [H | H].
  - rewrite (Reqb_true _ _ H). reflexivity.
  - rewrite (Reqb_true (Diameter o) 0 H), orb_true_r. reflexivity.
Qed.

Lemma calculateHydraulics_reynolds_nonpos (o : WaterPipe) :
  FlowRate o <> 0 -> Diameter o <> 0 -> Spec.reynolds o <= 0 ->
  calculateHydraulics o = Returned tt (set_PressureLoss 0 (after_velocity o)).
Proof.
  intros HQ HD HRe. to_reynolds_test o HQ HD.
  rewrite (Rgtb_false _ _ HRe). reflexivity.
Qed.

Lemma calculateHydraulics_domain_error (o : WaterPipe) :
  FlowRate o <> 0 -> Diameter o <> 0 -> 0 < Spec.reynolds o ->
  Spec.log_arg o <= 0 ->
  calculateHydraulics o = Raised ValueError (after_velocity o).
Proof.
  intros HQ HD HRe Harg. to_reynolds_test o HQ HD.
  rewrite (Rgtb_true _ _ HRe), bind_get.
  pose proof (diameter_m_nonzero o HD) as Hd. unfold Spec.diameter_m in Hd.
  py_div. rewrite bind_div_ok by (apply Rgt_not_eq, Rpower_pos). cbv beta.
  apply bind_log10_domain. exact Harg.
Qed.

Lemma calculateHydraulics_zero_division (o : WaterPipe) :
  FlowRate o <> 0 -> Diameter o <> 0 -> 0 < Spec.reynolds o ->
  0 < Spec.log_arg o -> log10 (Spec.log_arg o) = 0 ->
  calculateHydraulics o = Raised ZeroDivisionError (after_velocity o).
Proof.
  intros HQ HD HRe Harg Hlog. to_reynolds_test o HQ HD.
  rewrite (Rgtb_true _ _ HRe), bind_get.
  pose proof (diameter_m_nonzero o HD) as Hd. unfold Spec.diameter_m in Hd.
  py_div. rewrite bind_div_ok by (apply Rgt_not_eq, Rpower_pos). cbv beta.
  change (RoughnessCoeff (after_velocity o) / (3.7 * (Diameter o / 1000))
          + 5.74 / Rpower (Spec.reynolds o) 0.9) with (Spec.log_arg o).
  rewrite bind_log10_ok by exact Harg.
  apply bind_div_zero. rewrite Hlog. simpl. ring.
Qed.

Lemma calculateHydraulics_computed (o : WaterPipe) :
  FlowRate o <> 0 -> Diameter o <> 0 -> 0 < Spec.reynolds o ->
  0 < Spec.log_arg o -> log10 (Spec.log_arg o) <> 0 ->
  calculateHydraulics o =
    Returned tt (set_PressureLoss (Spec.pressure_loss_bar o) (after_velocity o)).
Proof.
  intros HQ HD HRe Harg Hlog. to_reynolds_test o HQ HD.
  rewrite (Rgtb_true _ _ HRe), bind_get.
  pose proof (diameter_m_nonzero o HD) as Hd. unfold Spec.diameter_m in Hd.
  py_div. rewrite bind_div_ok by (apply Rgt_not_eq, Rpower_pos). cbv beta.
  change (RoughnessCoeff (after_velocity o) / (3.7 * (Diameter o / 1000))
          + 5.74 / Rpower (Spec.reynolds o) 0.9) with (Spec.log_arg o).
  rewrite bind_log10_ok by exact Harg.
  rewrite bind_div_ok by (apply pow_nonzero, Hlog). cbv beta.
  do 3 py_div. reflexivity.
Qed.

(** Every call ends in one of the five ways. *)
Lemma calculateHydraulics_cases (o : WaterPipe) :
  calculateHydraulics o = Returned tt o
  \/ calculateHydraulics o = Returned tt (set_PressureLoss 0 (after_velocity o))
  \/ calculateHydraulics o = Raised ValueError (after_velocity o)
  \/ calculateHydraulics o = Raised ZeroDivisionError (after_velocity o)
  \/ calculateHydraulics o =
       Returned tt (set_PressureLoss (Spec.pressure_loss_bar o) (after_velocity o)).
Proof.
  destruct (Req_dec_T (FlowRate o) 0) as [HQ | HQ];
    [left; apply calculateHydraulics_noop; left; exact HQ |].
  destruct (Req_dec_T (Diameter o) 0) as [HD | HD];
    [left; apply calculateHydraulics_noop; right; exact HD |].
  right.
  destruct (Rlt_dec 0 (Spec.reynolds o)) as [HRe | HRe];
    [| left; apply calculateHydraulics_reynolds_nonpos; auto; lra].
  right.
  destruct (Rlt_dec 0 (Spec.log_arg o)) as [Harg | Harg];
    [| left; apply calculateHydraulics_domain_error; auto; lra].
  right.
  destruct (Req_dec_T (log10 (Spec.log_arg o)) 0) as [Hlog | Hlog].
  - left. apply calculateHydraulics_zero_division; auto.
  - right. apply calculateHydraulics_computed; auto.
Qed.


(** Only [Velocity] and [PressureLoss] are ever written. *)
Lemma calculateHydraulics_frame (o : WaterPipe) :
  let o' := final (calculateHydraulics o) in
  FlowRate o' = FlowRate o /\ Diameter o' = Diameter o /\ Length o' = Length o
  /\ PipeMaterial o' = PipeMaterial o /\ RoughnessCoeff o' = RoughnessCoeff o.
Proof.
  destruct (calculateHydraulics_cases o) as [H | [H | [H | [H | H]]]];
    rewrite H; cbn; repeat split; reflexivity.
Qed.

(** ** Signs and bounds of the hydraulic quantities *)

Lemma velocity_pos (o : WaterPipe) :
  0 < FlowRate o -> Diameter o <> 0 -> 0 < Spec.velocity o.
Proof.
  intros HQ HD. unfold Spec.velocity, Spec.flow_m3s.
  apply Rdiv_lt_0_compat; [lra | apply area_pos, HD].
Qed.

Lemma velocity_neg (o : WaterPipe) :
  FlowRate o < 0 -> Diameter o <> 0 -> Spec.velocity o < 0.
Proof.
  intros HQ HD. unfold Spec.velocity, Spec.flow_m3s.
  pose proof (Rinv_0_lt_compat _ (area_pos o HD)) as Hinv.
  unfold Rdiv at 1. nra.
Qed.

Lemma reynolds_pos (o : WaterPipe) :
  0 < FlowRate o -> 0 < Diameter o -> 0 < Spec.reynolds o.
Proof.
  intros HQ HD. unfold Spec.reynolds, Spec.diameter_m.
  assert (Hv : 0 < Spec.velocity o) by (apply velocity_pos; lra).
  apply Rdiv_lt_0_compat; [nra | lra].
Qed.

Lemma reynolds_neg (o : WaterPipe) :
  FlowRate o < 0 -> 0 < Diameter o -> Spec.reynolds o < 0.
Proof.
  intros HQ HD. unfold Spec.reynolds, Spec.diameter_m.
  assert (Hv : Spec.velocity o < 0) by (apply velocity_neg; lra).
  assert (Hn : Spec.velocity o * (Diameter o / 1000) < 0) by nra.
  assert (Hi : 0 < / 1.004e-6) by (apply Rinv_0_lt_compat; lra).
  unfold Rdiv at 1. nra.
Qed.

(** With [PI <= 4], Re = 4 Q' / (pi d nu) is at least Q' / (d nu). *)
Lemma reynolds_lower_bound (o : WaterPipe) :
  0 < FlowRate o -> 0 < Diameter o ->
  Spec.flow_m3s o / (Spec.diameter_m o * 1.004e-6) <= Spec.reynolds o.
Proof.
  intros HQ HD.
  assert (Hq : 0 < Spec.flow_m3s o) by (unfold Spec.flow_m3s; lra).
  assert (Hd : 0 < Spec.diameter_m o) by (unfold Spec.diameter_m; lra).
  unfold Spec.reynolds, Spec.velocity, Spec.area.
  set (q := Spec.flow_m3s o) in *. set (d := Spec.diameter_m o) in *.
  pose proof PI_4 as H4. pose proof PI_RGT_0 as H0.
  assert (E : q / (PI * (d / 2) ^ 2) * d / 1.004e-6
              = (q / (d * 1.004e-6)) * (4 / PI)) by (field; lra).
  rewrite E.
  assert (Hc : 0 < q / (d * 1.004e-6)) by (apply Rdiv_lt_0_compat; nra).
  assert (H1 : 1 <= 4 / PI).
  { apply (Rmult_le_reg_r PI); [lra |]. unfold Rdiv. rewrite Rmult_assoc, Rinv_l; lra. }
  nra.
Qed.

(** x <= (x^0.9)^2 for x >= 1, from x = x^0.9 x^0.1 and x^0.1 <= x^0.9. *)
Lemma Rpower_09_square (x : R) : 1 <= x -> x <= Rpower x 0.9 ^ 2.
Proof.
  intros Hx.
  assert (E : x = Rpower x 0.9 * Rpower x 0.1).
  { rewrite <- Rpower_plus. replace (0.9 + 0.1) with 1 by lra.
    symmetry. apply Rpower_1. lra. }
  assert (Hle : Rpower x 0.1 <= Rpower x 0.9) by (apply Rle_Rpower; lra).
  pose proof (Rpower_pos x 0.9) as Hp. pose proof (Rpower_pos x 0.1) as Hq.
  simpl. nra.
Qed.

Lemma log10_1 : log10 1 = 0.
Proof. unfold log10. rewrite ln_1. unfold Rdiv. ring. Qed.

Lemma ln_10_pos : 0 < ln 10.
Proof. rewrite <- ln_1. apply ln_increasing; lra. Qed.

Lemma log10_zero_iff (x : R) : 0 < x -> (log10 x = 0 <-> x = 1).
Proof.
  intros Hx. pose proof ln_10_pos as H10. split.
  - intros H. unfold log10 in H.
    assert (Hl : ln x = 0).
    { apply (Rmult_eq_reg_r (/ ln 10)); [| apply Rinv_neq_0_compat; lra].
      unfold Rdiv in H. rewrite H. ring. }
    apply ln_inv; [exact Hx | lra | rewrite ln_1; exact Hl].
  - intros ->. apply log10_1.
Qed.

(** ** Velocity *)

(** C3. When FlowRate is 0 or Diameter is 0 the call returns with the
    object exactly as it was: the stored Velocity and PressureLoss are
    kept, not reset. *)
Theorem zero_flow_or_diameter_is_noop (o : WaterPipe) :
  FlowRate o = 0 \/ Diameter o = 0 ->
  calculateHydraulics o = Returned tt o
  /\ Velocity (final (calculateHydraulics o)) = Velocity o
  /\ PressureLoss (final (calculateHydraulics o)) = PressureLoss o.
Proof.
  intros H. rewrite (calculateHydraulics_noop o H). repeat split.
Qed.

Lemma zero_flow_or_diameter_is_noop_witness :
  (Velocity (final (calculateHydraulics pipe_no_flow)) = 1
   /\ PressureLoss (final (calculateHydraulics pipe_no_flow)) = 0.03)
  /\ (Velocity (final (calculateHydraulics pipe_no_diameter)) = 1
      /\ PressureLoss (final (calculateHydraulics pipe_no_diameter)) = 0.03).
Proof.
  split.
  - apply (zero_flow_or_diameter_is_noop pipe_no_flow). left. reflexivity.
  - apply (zero_flow_or_diameter_is_noop pipe_no_diameter). right. reflexivity.
Defined.




(** ** The friction-factor logarithm *)

Lemma log_arg_set_Length (L : R) (o : WaterPipe) :
  Spec.log_arg (set_Length L o) = Spec.log_arg o.
Proof. reflexivity. Qed.

Lemma log_arg_pos (o : WaterPipe) :
  0 < FlowRate o -> 0 < Diameter o -> 0 <= RoughnessCoeff o -> 0 < Spec.log_arg o.
Proof.
  intros HQ HD Hr. unfold Spec.log_arg.
  assert (Hd : 0 < 3.7 * Spec.diameter_m o) by (unfold Spec.diameter_m; lra).
  assert (H1 : 0 <= RoughnessCoeff o / (3.7 * Spec.diameter_m o)).
  { apply Rmult_le_pos; [exact Hr | left; apply Rinv_0_lt_compat, Hd]. }
  assert (H2 : 0 < 5.74 / Rpower (Spec.reynolds o) 0.9).
  { apply Rdiv_lt_0_compat; [lra | apply Rpower_pos]. }
  lra.
Qed.

Lemma friction_factor_pos (o : WaterPipe) :
  log10 (Spec.log_arg o) <> 0 -> 0 < Spec.friction_factor o.
Proof.
  intros H. unfold Spec.friction_factor.
  apply Rdiv_lt_0_compat; [lra |].
  destruct (Rdichotomy _ _ H) as [Hn | Hp]; simpl; nra.
Qed.

(** The pressure loss is a positive multiple of the length. *)
Lemma pressure_loss_linear_in_length (o : WaterPipe) :
  Diameter o <> 0 ->
  Spec.pressure_loss_bar o
  = Length o * (Spec.friction_factor o * / Spec.diameter_m o
                * Spec.velocity o ^ 2 * / 200000).
Proof.
  intros HD. pose proof (diameter_m_nonzero o HD) as Hd.
  unfold Spec.pressure_loss_bar, Spec.length_m. field. exact Hd.
Qed.

Lemma pressure_loss_slope_pos (o : WaterPipe) :
  FlowRate o <> 0 -> 0 < Diameter o -> log10 (Spec.log_arg o) <> 0 ->
  0 < Spec.friction_factor o * / Spec.diameter_m o * Spec.velocity o ^ 2 * / 200000.
Proof.
  intros HQ HD Hlog.
  pose proof (friction_factor_pos o Hlog) as Hf.
  assert (Hd : 0 < / Spec.diameter_m o).
  { apply Rinv_0_lt_compat. unfold Spec.diameter_m. lra. }
  assert (Hv : 0 < Spec.velocity o ^ 2).
  { assert (Hne : Spec.velocity o <> 0).
    { destruct (Rdichotomy _ _ HQ) as [Hn | Hp].
      - apply Rlt_not_eq, velocity_neg; [exact Hn | lra].
      - apply Rgt_not_eq, velocity_pos; [exact Hp | lra]. }
    destruct (Rdichotomy _ _ Hne); simpl; nra. }
  assert (Hc : 0 < / 200000) by (apply Rinv_0_lt_compat; lra).
  apply Rmult_lt_0_compat; [| exact Hc].
  apply Rmult_lt_0_compat; [| exact Hv].
  apply Rmult_lt_0_compat; assumption.
Qed.

(** ** Bounds at 10 L/min through 15 mm *)

Lemma reynolds_10_15 (o : WaterPipe) :
  FlowRate o = 10 -> Diameter o = 15 -> 11000 <= Spec.reynolds o.
Proof.
  intros HQ HD.
  assert (H := reynolds_lower_bound o). rewrite HQ, HD in H.
  specialize (H ltac:(lra) ltac:(lra)).
  unfold Spec.flow_m3s, Spec.diameter_m in H. rewrite HQ, HD in H.
  eapply Rle_trans; [| exact H]. lra.
Qed.

Lemma visc_term_10_15 (o : WaterPipe) :
  FlowRate o = 10 -> Diameter o = 15 ->
  0 < 5.74 / Rpower (Spec.reynolds o) 0.9 <= 0.0574.
Proof.
  intros HQ HD. pose proof (reynolds_10_15 o HQ HD) as HRe.
  pose proof (Rpower_09_square (Spec.reynolds o) ltac:(lra)) as Hsq.
  pose proof (Rpower_pos (Spec.reynolds o) 0.9) as Hp.
  set (P := Rpower (Spec.reynolds o) 0.9) in *.
  assert (HP : 100 <= P) by (simpl in Hsq; nra).
  split.
  - apply Rdiv_lt_0_compat; lra.
  - apply (Rmult_le_reg_r P); [exact Hp |].
    unfold Rdiv. rewrite Rmult_assoc, Rinv_l by lra. lra.
Qed.

(** ** Pressure loss *)

Lemma negative_roughness_log_arg :
  0 < Spec.reynolds pipe_negative_roughness
  /\ Spec.log_arg pipe_negative_roughness <= 0.
Proof.
  pose proof (reynolds_10_15 pipe_negative_roughness eq_refl eq_refl) as HRe.
  pose proof (visc_term_10_15 pipe_negative_roughness eq_refl eq_refl) as [_ Hv].
  split; [lra |].
  unfold Spec.log_arg.
  change (RoughnessCoeff pipe_negative_roughness) with (-1).
  change (Spec.diameter_m pipe_negative_roughness) with (15 / 1000).
  lra.
Qed.

(** The call on [pipe_negative_roughness], whatever PressureLoss holds. *)
Lemma negative_roughness_raises (p : R) :
  calculateHydraulics (set_PressureLoss p pipe_negative_roughness)
  = Raised ValueError
      (set_Velocity (Spec.velocity pipe_negative_roughness)
                    (set_PressureLoss p pipe_negative_roughness)).
Proof.
  destruct negative_roughness_log_arg as [HRe Harg].
  apply calculateHydraulics_domain_error; simpl; try lra; assumption.
Qed.

(** C2, as stated, fails for 10 L/min, 15 mm, 1000 mm and roughness -1,
    where Re > 0: [math.log10] raises before PressureLoss is assigned, so
    the stored PressureLoss is the old one.  Starting from an old value
    of 1 and from an old value of 2 it cannot both times equal the one
    value the formula gives for these four inputs. *)
Lemma pressure_loss_formula_fails_on_domain_error :
  ~ (pressure_loss_claim (set_PressureLoss 1 pipe_negative_roughness)
     /\ pressure_loss_claim (set_PressureLoss 2 pipe_negative_roughness)).
Proof.
  intros [H1 H2].
  destruct negative_roughness_log_arg as [HRe _].
  destruct (H1 ltac:(simpl; lra) ltac:(simpl; lra)) as [E1 _].
  destruct (H2 ltac:(simpl; lra) ltac:(simpl; lra)) as [E2 _].
  specialize (E1 HRe). specialize (E2 HRe).
  rewrite negative_roughness_raises in E1, E2.
  change (1 = Spec.pressure_loss_bar pipe_negative_roughness) in E1.
  change (2 = Spec.pressure_loss_bar pipe_negative_roughness) in E2.
  lra.
Qed.





(** ** Failures of the friction-factor computation *)

Lemma critical_roughness_log_arg (o : WaterPipe) :
  Diameter o <> 0 ->
  Spec.log_arg (set_RoughnessCoeff (critical_roughness o) o) = 1.
Proof.
  intros HD. pose proof (diameter_m_nonzero o HD) as Hd.
  unfold Spec.log_arg, critical_roughness.
  change (RoughnessCoeff (set_RoughnessCoeff ?r o)) with r.
  change (Spec.diameter_m (set_RoughnessCoeff ?r o)) with (Spec.diameter_m o).
  change (Spec.reynolds (set_RoughnessCoeff ?r o)) with (Spec.reynolds o).
  pose proof (Rpower_pos (Spec.reynolds o) 0.9) as Hp.
  field. split; lra.
Qed.

Lemma critical_roughness_copper_bounds :
  0.05 <= critical_roughness pipe_copper <= 0.0555.
Proof.
  pose proof (visc_term_10_15 pipe_copper eq_refl eq_refl) as [Hv0 Hv].
  unfold critical_roughness.
  change (Spec.diameter_m pipe_copper) with (15 / 1000).
  lra.
Qed.

(** When the logarithm is defined and not 0, valid inputs give a positive
    velocity and a positive pressure loss. *)
Lemma valid_input_positive_results (o : WaterPipe) :
  0 < FlowRate o -> 0 < Diameter o -> 0 < Length o -> 0 <= RoughnessCoeff o ->
  Spec.log_arg o <> 1 ->
  completes (calculateHydraulics o)
  /\ 0 < Velocity (final (calculateHydraulics o))
  /\ 0 < PressureLoss (final (calculateHydraulics o)).
Proof.
  intros HQ HD HL Hr Hx1.
  pose proof (reynolds_pos o HQ HD) as HRe.
  pose proof (log_arg_pos o HQ HD Hr) as Hx.
  assert (Hlog : log10 (Spec.log_arg o) <> 0).
  { intros E. apply Hx1. apply (log10_zero_iff _ Hx). exact E. }
  rewrite calculateHydraulics_computed by (try lra; assumption).
  split; [exact I |]. cbn. split.
  - apply velocity_pos; lra.
  - rewrite pressure_loss_linear_in_length by lra.
    apply Rmult_lt_0_compat; [exact HL |].
    apply pressure_loss_slope_pos; [lra | exact HD | exact Hlog].
Qed.

(** C4: the code at a valid input (flow > 0, diameter > 0, length > 0,
    roughness >= 0) where it does not complete.  At the critical roughness
    the argument of the logarithm is 1, the logarithm is 0, and
    [0.25 / 0 ** 2] raises ZeroDivisionError after Velocity is stored. *)
Theorem valid_input_division_by_zero :
  0 < FlowRate pipe_critical_roughness
  /\ 0 < Diameter pipe_critical_roughness
  /\ 0 < Length pipe_critical_roughness
  /\ 0 <= RoughnessCoeff pipe_critical_roughness
  /\ calculateHydraulics pipe_critical_roughness
     = Raised ZeroDivisionError
         (set_Velocity (Spec.velocity pipe_critical_roughness) pipe_critical_roughness).
Proof.
  pose proof critical_roughness_copper_bounds as [Hlo Hhi].
  assert (Harg : Spec.log_arg pipe_critical_roughness = 1).
  { apply (critical_roughness_log_arg pipe_copper). simpl. lra. }
  repeat split; try (simpl; lra).
  apply calculateHydraulics_zero_division.
  - simpl; lra.
  - simpl; lra.
  - pose proof (reynolds_10_15 pipe_critical_roughness eq_refl eq_refl). lra.
  - rewrite Harg. lra.
  - rewrite Harg. apply log10_1.
Qed.

(** C5: the code at roughness -1 (10 L/min, 15 mm, 1000 mm, Velocity and
    PressureLoss 0 so far).  [math.log10] raises ValueError, nothing
    catches it, and the object is left with a new Velocity. *)
Theorem domain_error_escapes_with_velocity_written :
  calculateHydraulics pipe_negative_roughness
  = Raised ValueError
      (set_Velocity (Spec.velocity pipe_negative_roughness) pipe_negative_roughness)
  /\ Velocity (final (calculateHydraulics pipe_negative_roughness))
     <> Velocity pipe_negative_roughness
  /\ PressureLoss (final (calculateHydraulics pipe_negative_roughness))
     = PressureLoss pipe_negative_roughness.
Proof.
  destruct negative_roughness_log_arg as [HRe Harg].
  rewrite calculateHydraulics_domain_error by (simpl; try lra; assumption).
  split; [reflexivity |]. split; [| reflexivity].
  cbn. apply Rgt_not_eq.
  apply (velocity_pos pipe_negative_roughness); simpl; lra.
Qed.

(** ** Material and roughness *)

Lemma material_roughness_lookup (material : string) :
  dict_get material_roughness material 0.0015 = Table.roughness material.
Proof.
  unfold dict_get, material_roughness, Table.roughness.
  destruct (String.eqb_spec material "Copper") as [-> | H1]; [reflexivity |].
  rewrite lookup_insert_ne by congruence.
  destruct (String.eqb_spec material "PVC") as [-> | H2]; [reflexivity |].
  rewrite lookup_insert_ne by congruence.
  destruct (String.eqb_spec material "PEX") as [-> | H3]; [reflexivity |].
  rewrite lookup_insert_ne by congruence.
  destruct (String.eqb_spec material "HDPE") as [-> | H4]; [reflexivity |].
  destruct (String.eqb_spec material "Steel") as [-> | H5]; [reflexivity |].
  rewrite lookup_insert_ne by congruence.
  destruct (String.eqb_spec material "Cast Iron") as [-> | H6]; [reflexivity |].
  rewrite lookup_insert_ne by congruence.
  rewrite lookup_insert_ne by congruence.
  rewrite lookup_empty. reflexivity.
Qed.

Lemma updateMaterialProperties_run (o : WaterPipe) :
  updateMaterialProperties o
  = Returned tt (set_RoughnessCoeff (Table.roughness (PipeMaterial o)) o).
Proof.
  unfold updateMaterialProperties. rewrite bind_get. unfold assign.
  rewrite material_roughness_lookup. reflexivity.
Qed.

(** C8. [updateMaterialProperties] stores the roughness 0.0015 for Copper,
    0.0001 for PVC, PEX and HDPE, 0.045 for Steel, 0.25 for Cast Iron, and
    the default 0.0015 for every other material name. *)
Theorem material_roughness_table (o : WaterPipe) :
  let m := PipeMaterial o in
  let r := RoughnessCoeff (final (updateMaterialProperties o)) in
  (m = "Copper"%string -> r = 0.0015)
  /\ (m = "PVC"%string -> r = 0.0001)
  /\ (m = "PEX"%string -> r = 0.0001)
  /\ (m = "HDPE"%string -> r = 0.0001)
  /\ (m = "Steel"%string -> r = 0.045)
  /\ (m = "Cast Iron"%string -> r = 0.25)
  /\ (~ In m Table.known -> r = 0.0015).
Proof.
  intros m r. subst m r. rewrite updateMaterialProperties_run. cbn [final RoughnessCoeff set_RoughnessCoeff].
  repeat split; try (intros ->; reflexivity).
  intros Hnot. unfold Table.roughness.
  repeat match goal with
  | |- context [String.eqb (PipeMaterial o) ?s] =>
      destruct (String.eqb_spec (PipeMaterial o) s) as [E | _];
      [exfalso; apply Hnot; rewrite E; cbn; tauto |]
  end.
  reflexivity.
Qed.

Lemma material_roughness_table_witness :
  RoughnessCoeff (final (updateMaterialProperties
                           (mkWaterPipe 10 15 1000 "Steel" 0.0015 0 0))) = 0.045
  /\ RoughnessCoeff (final (updateMaterialProperties
                           (mkWaterPipe 10 15 1000 "Lead" 0.3 0 0))) = 0.0015.
Proof.
  split.
  - apply (material_roughness_table (mkWaterPipe 10 15 1000 "Steel" 0.0015 0 0)).
    reflexivity.
  - apply (material_roughness_table (mkWaterPipe 10 15 1000 "Lead" 0.3 0 0)).
    cbn. intros H. decompose [or] H; try discriminate; contradiction.
Defined.

(** ** Property changes *)

Section OnChangedFacts.

Variable ArchPipe_onChanged : string -> Py unit.

Lemma onChanged_PipeMaterial_run (o o1 : WaterPipe) :
  ArchPipe_onChanged "PipeMaterial" o = Returned tt o1 ->
  onChanged ArchPipe_onChanged "PipeMaterial" o
  = calculateHydraulics (set_RoughnessCoeff (Table.roughness (PipeMaterial o1)) o1).
Proof.
  intros Hparent. unfold onChanged.
  rewrite (bind_returned _ _ _ _ _ Hparent).
  cbn [String.eqb Ascii.eqb Bool.eqb existsb hydraulic_props orb].
  rewrite (bind_returned _ _ _ _ _ (updateMaterialProperties_run o1)).
  reflexivity.
Qed.

(** C10. When [onChanged] handles prop = "PipeMaterial" (the host's own
    handler having returned), RoughnessCoeff is first overwritten with
    the table value of the current PipeMaterial, whatever it was, and the
    hydraulics are computed from that object; afterwards the stored
    RoughnessCoeff is the table value of the stored PipeMaterial. *)
Theorem material_change_overwrites_roughness (o o1 : WaterPipe) :
  ArchPipe_onChanged "PipeMaterial" o = Returned tt o1 ->
  let o' := final (onChanged ArchPipe_onChanged "PipeMaterial" o) in
  onChanged ArchPipe_onChanged "PipeMaterial" o
  = calculateHydraulics (set_RoughnessCoeff (Table.roughness (PipeMaterial o1)) o1)
  /\ PipeMaterial o' = PipeMaterial o1
  /\ RoughnessCoeff o' = Table.roughness (PipeMaterial o').
Proof.
  intros Hparent o'. subst o'.
  rewrite (onChanged_PipeMaterial_run o o1 Hparent).
  split; [reflexivity |].
  destruct (calculateHydraulics_frame
              (set_RoughnessCoeff (Table.roughness (PipeMaterial o1)) o1))
    as (_ & _ & _ & Hm & Hr).
  rewrite Hm, Hr. split; reflexivity.
Qed.

End OnChangedFacts.

Lemma material_change_overwrites_roughness_witness :
  RoughnessCoeff (final (onChanged (fun _ => ret tt) "PipeMaterial" pipe_steel_override))
  = Table.roughness
      (PipeMaterial (final (onChanged (fun _ => ret tt) "PipeMaterial" pipe_steel_override))).
Proof.
  apply (material_change_overwrites_roughness (fun _ => ret tt)
           pipe_steel_override pipe_steel_override).
  reflexivity.
Defined.

(** * Further properties of the water pipe *)

(** * The hydraulics on doubles *)

Section Doubles.

Import Binary64.
#[local] Set Warnings "-inexact-float".
Local Open Scope float_scope.

(** ** Signs of products and quotients of doubles *)

Lemma Prim2SF_0 : Prim2SF 0 = S754_zero false.
Proof. reflexivity. Qed.

(** A rounded result has the sign it was given, or is NaN. *)
Lemma binary_round_aux_sign (s : bool) (m e : Z) (l : location) :
  let r := binary_round_aux prec emax s m e l in
  r = S754_zero s \/ (exists m' e', r = S754_finite s m' e')
  \/ r = S754_infinity s \/ r = S754_nan.
Proof.
  cbn zeta. unfold binary_round_aux.
  destruct (shr_fexp prec emax m e l) as [mrs' e'].
  destruct (shr_fexp prec emax _ e' loc_Exact) as [mrs'' e''].
  destruct (shr_m mrs'') as [| p | p].
  - left. reflexivity.
  - destruct (e'' <=? emax - prec)%Z.
    + right. left. eexists. eexists. reflexivity.
    + right. right. left. reflexivity.
  - right. right. right. reflexivity.
Qed.

Lemma binary_round_aux_not_positive (m e : Z) (l : location) :
  SFltb (S754_zero false) (binary_round_aux prec emax true m e l) = false.
Proof.
  destruct (binary_round_aux_sign true m e l) as [H | [[m' [e' H]] | [H | H]]];
    rewrite H; reflexivity.
Qed.

Lemma binary_round_aux_not_negative (m e : Z) (l : location) :
  SFltb (binary_round_aux prec emax false m e l) (S754_zero false) = false.
Proof.
  destruct (binary_round_aux_sign false m e l) as [H | [[m' [e' H]] | [H | H]]];
    rewrite H; reflexivity.
Qed.

(** A quotient of a double that is not positive by a positive one is not
    positive: negative, a zero, or NaN. *)
Lemma div_not_positive (x y : float) :
  (0 <? x) = false -> (0 <? y) = true -> (0 <? x / y) = false.
Proof.
  rewrite !FloatAxioms.ltb_spec, FloatAxioms.div_spec, Prim2SF_0.
  destruct (Prim2SF x) as [sx | sx | | sx mx ex], (Prim2SF y) as [sy | sy | | sy my ey];
    try destruct sx; try destruct sy; try discriminate; try reflexivity.
  intros _ _. unfold SF64div, SFdiv.
  destruct (SFdiv_core_binary prec emax (Z.pos mx) ex (Z.pos my) ey) as [[mz ez] lz].
  apply binary_round_aux_not_positive.
Qed.

(** The same for a double that is not negative. *)
Lemma div_not_negative (x y : float) :
  (x <? 0) = false -> (0 <? y) = true -> (x / y <? 0) = false.
Proof.
  rewrite !FloatAxioms.ltb_spec, FloatAxioms.div_spec, Prim2SF_0.
  destruct (Prim2SF x) as [sx | sx | | sx mx ex], (Prim2SF y) as [sy | sy | | sy my ey];
    try destruct sx; try destruct sy; try discriminate; try reflexivity.
  intros _ _. unfold SF64div, SFdiv.
  destruct (SFdiv_core_binary prec emax (Z.pos mx) ex (Z.pos my) ey) as [[mz ez] lz].
  apply binary_round_aux_not_negative.
Qed.

(** A product of a double that is not positive with one that is not
    negative is not positive. *)
Lemma mul_not_positive (x y : float) :
  (0 <? x) = false -> (y <? 0) = false -> (0 <? x * y) = false.
Proof.
  rewrite !FloatAxioms.ltb_spec, FloatAxioms.mul_spec, Prim2SF_0.
  destruct (Prim2SF x) as [sx | sx | | sx mx ex], (Prim2SF y) as [sy | sy | | sy my ey];
    try destruct sx; try destruct sy; try discriminate; try reflexivity.
  intros _ _. apply binary_round_aux_not_positive.
Qed.

Lemma negative_not_positive (x : float) : (x <? 0) = true -> (0 <? x) = false.
Proof.
  rewrite !FloatAxioms.ltb_spec, Prim2SF_0.
  destruct (Prim2SF x) as [sx | sx | | sx mx ex]; try destruct sx;
    try discriminate; reflexivity.
Qed.

Lemma positive_not_negative (x : float) : (0 <? x) = true -> (x <? 0) = false.
Proof.
  rewrite !FloatAxioms.ltb_spec, Prim2SF_0.
  destruct (Prim2SF x) as [sx | sx | | sx mx ex]; try destruct sx;
    try discriminate; reflexivity.
Qed.

Lemma positive_not_zero (x : float) : (0 <? x) = true -> (x =? 0) = false.
Proof.
  rewrite FloatAxioms.ltb_spec, FloatAxioms.eqb_spec, Prim2SF_0.
  destruct (Prim2SF x) as [sx | sx | | sx mx ex]; try destruct sx;
    try discriminate; reflexivity.
Qed.

(** A double that is not positive is negative, a zero, or NaN. *)
Lemma not_positive_cases (x : float) :
  (0 <? x) = false -> (x <? 0) = true \/ (x =? 0) = true \/ is_nan x = true.
Proof.
  unfold is_nan. rewrite !FloatAxioms.ltb_spec, !FloatAxioms.eqb_spec, Prim2SF_0.
  destruct (Prim2SF x) as [sx | sx | | sx mx ex]; try destruct sx;
    try discriminate; intros _; auto.
Qed.


(** ** Running the method *)

Variable pow : float -> float -> float.
Variable log10 : float -> float.

Lemma float_div_nonzero (x y : float) :
  (y =? 0) = false -> float_div x y = Value (x / y).
Proof. intros H. unfold float_div. rewrite H. reflexivity. Qed.

(** The guard. *)
Lemma calculateHydraulics_guard (o : WaterPipe) :
  (FlowRate o =? 0) || (Diameter o =? 0) = true ->
  calculateHydraulics pow log10 o = Returned tt o.
Proof.
  intros H. unfold calculateHydraulics, bind, get. rewrite H. reflexivity.
Qed.

(** Past the guard: the squaring of the half diameter, the assignment of
    Velocity, the test on the Reynolds number, and the pressure loss. *)
Lemma calculateHydraulics_run (o : WaterPipe) :
  (FlowRate o =? 0) = false -> (Diameter o =? 0) = false ->
  calculateHydraulics pow log10 o =
  match area pow o with
  | Raises e => Raised e o
  | Value a =>
      let v := if 0 <? a then FlowRate o / 60000.0 / a else 0 in
      if 0 <? reynolds v o then
        match pressure_loss_bar pow log10 v o with
        | Value p => Returned tt (set_PressureLoss p (set_Velocity v o))
        | Raises e => Raised e (set_Velocity v o)
        end
      else Returned tt (set_PressureLoss 0 (set_Velocity v o))
  end.
Proof.
  intros HQ HD.
  unfold calculateHydraulics, area, pressure_loss_bar, friction_factor, reynolds.
  unfold bind, eval, get, assign, and_then. rewrite HQ, HD. cbn [orb].
  do 4 (rewrite float_div_nonzero by reflexivity; cbv beta iota).
  destruct (float_pow pow (Diameter o / 1000.0 / 2) 2) as [square | e]; [| reflexivity].
  cbv beta iota zeta.
  set (a := math_pi * square).
  assert (Hv : (if 0 <? a then float_div (FlowRate o / 60000.0) a else Value 0)
               = Value (if 0 <? a then FlowRate o / 60000.0 / a else 0)).
  { destruct (0 <? a) eqn:Ha; [| reflexivity].
    apply float_div_nonzero, positive_not_zero, Ha. }
  rewrite Hv. cbv beta iota.
  set (v := if 0 <? a then FlowRate o / 60000.0 / a else 0).
  rewrite (float_div_nonzero _ 1.004e-6) by reflexivity. cbv beta iota.
  destruct (0 <? v * (Diameter o / 1000.0) / 1.004e-6); [| reflexivity].
  cbn [RoughnessCoeff set_Velocity].
  repeat match goal with
         | |- context [match ?r with Value _ => _ | Raises _ => _ end] =>
             destruct r; try reflexivity
         end.
Qed.


Lemma negative_not_zero (x : float) : (x <? 0) = true -> (x =? 0) = false.
Proof.
  rewrite FloatAxioms.ltb_spec, FloatAxioms.eqb_spec, Prim2SF_0.
  destruct (Prim2SF x) as [sx | sx | | sx mx ex]; try destruct sx;
    try discriminate; reflexivity.
Qed.

(** ** Velocity on doubles *)

(** Past the guard, what [Velocity] holds afterwards. *)
Lemma stored_velocity (o : WaterPipe) :
  (FlowRate o =? 0) = false -> (Diameter o =? 0) = false ->
  match area pow o with
  | Value a =>
      Velocity (final (calculateHydraulics pow log10 o))
      = if 0 <? a then FlowRate o / 60000.0 / a else 0
  | Raises e => calculateHydraulics pow log10 o = Raised e o
  end.
Proof.
  intros HQ HD. rewrite (calculateHydraulics_run o HQ HD).
  destruct (area pow o) as [a | e]; [| reflexivity].
  cbv zeta. set (v := if 0 <? a then FlowRate o / 60000.0 / a else 0).
  destruct (0 <? reynolds v o); [| reflexivity].
  destruct (pressure_loss_bar pow log10 v o); reflexivity.
Qed.

(** C1, amended. Past the guard, in double arithmetic: when the area
    A = math.pi * ((Diameter/1000.0)/2) ** 2 is computed and A > 0, the
    stored Velocity is (FlowRate/60000.0) / A; when A is not > 0 (the
    diameter is so small that A underflows to 0.0) the stored Velocity is
    0; and when the squaring overflows, its OverflowError escapes before
    Velocity is assigned and the object is untouched. *)
Theorem velocity_is_flow_over_computed_area (o : WaterPipe) :
  (FlowRate o =? 0) = false -> (Diameter o =? 0) = false ->
  match area pow o with
  | Value a =>
      Velocity (final (calculateHydraulics pow log10 o))
      = if 0 <? a then FlowRate o / 60000.0 / a else 0
  | Raises e => calculateHydraulics pow log10 o = Raised e o
  end.
Proof. exact (stored_velocity o). Qed.

(** C9, amended. With FlowRate < 0 and Diameter > 0, in double
    arithmetic: unless the squaring of the half diameter overflows (its
    OverflowError escapes and the object is untouched), the call returns
    having set PressureLoss to 0.0 and Velocity to (FlowRate/60000.0) / A
    when the computed area A is > 0, and to 0 when it is not.  The stored
    Velocity is never positive: it is strictly negative, or a zero (the
    area or the quotient underflowed), or NaN (-inf / inf). *)
Theorem negative_flow_partial_update_on_doubles (o : WaterPipe) :
  (FlowRate o <? 0) = true -> (0 <? Diameter o) = true ->
  match area pow o with
  | Value a =>
      let v := if 0 <? a then FlowRate o / 60000.0 / a else 0 in
      calculateHydraulics pow log10 o
      = Returned tt (set_PressureLoss 0 (set_Velocity v o))
      /\ ((v <? 0) = true \/ (v =? 0) = true \/ is_nan v = true)
  | Raises e => calculateHydraulics pow log10 o = Raised e o
  end.
Proof.
  intros HQ HD.
  rewrite (calculateHydraulics_run o (negative_not_zero _ HQ) (positive_not_zero _ HD)).
  destruct (area pow o) as [a | e]; [| reflexivity].
  cbv zeta. set (v := if 0 <? a then FlowRate o / 60000.0 / a else 0).
  assert (Hv : (0 <? v) = false).
  { subst v. destruct (0 <? a) eqn:Ha; [| reflexivity].
    apply div_not_positive; [| exact Ha].
    apply div_not_positive; [| reflexivity].
    apply negative_not_positive, HQ. }
  assert (HRe : (0 <? reynolds v o) = false).
  { unfold reynolds. apply div_not_positive; [| reflexivity].
    apply mul_not_positive; [exact Hv |].
    apply div_not_negative; [| reflexivity].
    apply positive_not_negative, HD. }
  rewrite HRe. split; [reflexivity |].
  apply not_positive_cases, Hv.
Qed.

(** ** Pressure loss on doubles *)

(** C2, amended. Past the guard, in double arithmetic, and unless the
    squaring of the half diameter overflows (then its OverflowError
    escapes and the object is untouched): with v the velocity the call
    stores and Re = v d / 1.004e-6, if Re > 0 and the evaluation of
    f (L/d) (1000 v^2) / 2 / 100000 with
    f = 0.25 / (log10 (RoughnessCoeff/(3.7 d) + 5.74/Re^0.9))^2 raises
    nothing, the call returns and the stored PressureLoss is that value;
    if the evaluation raises, the call raises the same exception and the
    stored PressureLoss is the one from before; if Re is not > 0 the call
    returns and the stored PressureLoss is 0. *)
Theorem pressure_loss_is_darcy_weisbach_on_doubles (o : WaterPipe) :
  (FlowRate o =? 0) = false -> (Diameter o =? 0) = false ->
  match area pow o with
  | Value _ =>
      let r := calculateHydraulics pow log10 o in
      let v := Velocity (final r) in
      if 0 <? reynolds v o then
        match pressure_loss_bar pow log10 v o with
        | Value p => (exists o', r = Returned tt o') /\ PressureLoss (final r) = p
        | Raises e =>
            (exists o', r = Raised e o') /\ PressureLoss (final r) = PressureLoss o
        end
      else (exists o', r = Returned tt o') /\ PressureLoss (final r) = 0
  | Raises e => calculateHydraulics pow log10 o = Raised e o
  end.
Proof.
  intros HQ HD.
  pose proof (stored_velocity o HQ HD) as HV.
  rewrite (calculateHydraulics_run o HQ HD) in HV |- *.
  destruct (area pow o) as [a | e]; [| reflexivity].
  cbv zeta in *. set (v := if 0 <? a then FlowRate o / 60000.0 / a else 0) in *.
  rewrite HV.
  destruct (0 <? reynolds v o); [| split; [eexists |]; reflexivity].
  destruct (pressure_loss_bar pow log10 v o); split; try eexists; reflexivity.
Qed.


(** ** The guard and the failures on doubles *)

(** X1. On doubles the guard takes [0.0] and [-0.0] alike: when FlowRate
    or Diameter compares equal to 0 the call returns and the object is
    untouched, whatever the C library. *)
Theorem guard_on_doubles (o : WaterPipe) :
  (FlowRate o =? 0) = true \/ (Diameter o =? 0) = true ->
  calculateHydraulics pow log10 o = Returned tt o.
Proof.
  intros H. apply calculateHydraulics_guard.
  destruct H as [-> | ->]; [reflexivity | apply orb_true_r].
Qed.

Lemma float_div_raises (x y : float) (e : exn) :
  float_div x y = Raises e -> e = ZeroDivisionError.
Proof.
  unfold float_div. destruct (y =? 0); intros H; [| discriminate].
  injection H as <-. reflexivity.
Qed.

Lemma math_log10_raises (x : float) (e : exn) :
  math_log10 log10 x = Raises e -> e = ValueError.
Proof.
  unfold math_log10.
  repeat match goal with
         | |- context [if ?b then _ else _] => destruct b
         end; intros H; try discriminate; injection H as <-; reflexivity.
Qed.

(** Squaring raises nothing but [OverflowError]. *)
Lemma float_pow_2_raises (x : float) (e : exn) :
  float_pow pow x 2 = Raises e -> e = OverflowError.
Proof.
  unfold float_pow.
  change (2 =? 0) with false. change (is_nan 2) with false.
  change (is_infinity 2) with false. change (2 <? 0) with false.
  change (is_integer 2) with true. change (is_odd_integer 2) with false.
  cbn [negb]. rewrite !andb_false_r.
  repeat match goal with
         | |- context [if ?b then _ else _] => destruct b
         end; intros H; try discriminate; injection H as <-; reflexivity.
Qed.

(** So does [x ** 0.9] on a positive base. *)
Lemma float_pow_09_raises (x : float) (e : exn) :
  (0 <? x) = true -> float_pow pow x 0.9 = Raises e -> e = OverflowError.
Proof.
  intros Hx. unfold float_pow.
  rewrite (positive_not_zero x Hx), (positive_not_negative x Hx).
  change (0.9 =? 0) with false. change (is_nan 0.9) with false.
  change (is_infinity 0.9) with false. change (0.9 <? 0) with false.
  cbn [andb].
  repeat match goal with
         | |- context [if ?b then _ else _] => destruct b
         end; intros H; try discriminate; injection H as <-; reflexivity.
Qed.

Lemma pressure_loss_bar_raises (v : float) (o : WaterPipe) (e : exn) :
  (0 <? reynolds v o) = true ->
  pressure_loss_bar pow log10 v o = Raises e ->
  e = ZeroDivisionError \/ e = ValueError \/ e = OverflowError.
Proof.
  intros HRe. unfold pressure_loss_bar, friction_factor, and_then.
  destruct (float_div (RoughnessCoeff o) _) as [rel_rough | e1] eqn:E1.
  2:{ intros H. injection H as <-. left. exact (float_div_raises _ _ _ E1). }
  destruct (float_pow pow (reynolds v o) 0.9) as [power | e2] eqn:E2.
  2:{ intros H. injection H as <-. right. right.
      exact (float_pow_09_raises _ _ HRe E2). }
  destruct (float_div 5.74 power) as [visc_term | e3] eqn:E3.
  2:{ intros H. injection H as <-. left. exact (float_div_raises _ _ _ E3). }
  destruct (math_log10 log10 (rel_rough + visc_term)) as [lg | e4] eqn:E4.
  2:{ intros H. injection H as <-. right. left. exact (math_log10_raises _ _ E4). }
  destruct (float_pow pow lg 2) as [lg2 | e5] eqn:E5.
  2:{ intros H. injection H as <-. right. right. exact (float_pow_2_raises _ _ E5). }
  destruct (float_div 0.25 lg2) as [f | e6] eqn:E6.
  2:{ intros H. injection H as <-. left. exact (float_div_raises _ _ _ E6). }
  destruct (float_div (Length o / 1000.0) _) as [slender | e7] eqn:E7.
  2:{ intros H. injection H as <-. left. exact (float_div_raises _ _ _ E7). }
  destruct (float_pow pow v 2) as [v2 | e8] eqn:E8.
  2:{ intros H. injection H as <-. right. right. exact (float_pow_2_raises _ _ E8). }
  discriminate.
Qed.

Lemma area_raises (o : WaterPipe) (e : exn) :
  area pow o = Raises e -> e = OverflowError.
Proof.
  unfold area, and_then.
  destruct (float_pow pow _ 2) as [square | e1] eqn:E1; [discriminate |].
  intros H. injection H as <-. exact (float_pow_2_raises _ _ E1).
Qed.

(** X2. Whenever the call raises on doubles, the exception is
    ZeroDivisionError, ValueError or OverflowError.  Either it is the
    OverflowError of the squaring of the half diameter and the object is
    untouched; or the Reynolds number is positive, the exception comes
    from the evaluation of the pressure loss, and the object is left with
    the new Velocity and everything else, PressureLoss included, as it
    was. *)
Theorem failure_state_on_doubles (o o' : WaterPipe) (e : exn) :
  calculateHydraulics pow log10 o = Raised e o' ->
  (e = ZeroDivisionError \/ e = ValueError \/ e = OverflowError)
  /\ ((area pow o = Raises e /\ e = OverflowError /\ o' = o)
      \/ exists a,
           area pow o = Value a
           /\ let v := if 0 <? a then FlowRate o / 60000.0 / a else 0 in
              (0 <? reynolds v o) = true
              /\ pressure_loss_bar pow log10 v o = Raises e
              /\ o' = set_Velocity v o
              /\ PressureLoss o' = PressureLoss o).
Proof.
  intros H.
  destruct ((FlowRate o =? 0) || (Diameter o =? 0)) eqn:G.
  { rewrite (calculateHydraulics_guard o G) in H. discriminate. }
  apply orb_false_elim in G. destruct G as [HQ HD].
  rewrite (calculateHydraulics_run o HQ HD) in H.
  destruct (area pow o) as [a | e1] eqn:Ea.
  - cbv zeta in H. set (v := if 0 <? a then FlowRate o / 60000.0 / a else 0) in *.
    destruct (0 <? reynolds v o) eqn:HRe; [| discriminate].
    destruct (pressure_loss_bar pow log10 v o) as [p | e2] eqn:Ep; [discriminate |].
    injection H as <- <-.
    split; [exact (pressure_loss_bar_raises v o e2 HRe Ep) |].
    right. exists a. split; [reflexivity |]. cbv zeta. fold v.
    repeat split; assumption.
  - injection H as <- <-.
    pose proof (area_raises o e1 Ea) as He.
    split; [right; right; exact He |].
    left. repeat split; assumption.
Qed.

End Doubles.

(** ** The doubles at which the claims fail, and examples *)

Section DoublesExamples.

Import Binary64.
#[local] Set Warnings "-inexact-float".
Local Open Scope float_scope.

(** With a diameter of 5e-324 mm the diameter in metres is 0.0, the area
    is 0.0, the branch [else 0] is taken and the Reynolds number is 0.0:
    the call returns with Velocity 0 and PressureLoss 0.0, whatever the C
    library. *)
Lemma vanishing_diameter_run (pow : float -> float -> float) (log10 : float -> float) :
  area pow pipe_vanishing_diameter = Value 0
  /\ calculateHydraulics pow log10 pipe_vanishing_diameter
     = Returned tt (set_PressureLoss 0 (set_Velocity 0 pipe_vanishing_diameter)).
Proof. split; reflexivity. Qed.

(** C1, as stated, fails on doubles for FlowRate = 10 and Diameter =
    5e-324, both other than 0: the area underflows to 0.0 and the stored
    Velocity is the 0 of the [else] branch, while the quotient of
    FlowRate / 60000 by the area is [+inf] (and a [ZeroDivisionError] as a
    Python division).  No C library makes the claim true there. *)
Lemma velocity_formula_fails_on_area_underflow :
  ~ exists pow log10, velocity_claim pow log10 pipe_vanishing_diameter.
Proof.
  intros (pow & log10 & H).
  destruct (H eq_refl eq_refl) as (a & Ha & Hv).
  destruct (vanishing_diameter_run pow log10) as [Ea Erun].
  rewrite Ea in Ha. injection Ha as <-.
  rewrite Erun in Hv. apply (f_equal Prim2SF) in Hv.
  vm_compute in Hv. discriminate Hv.
Qed.

Lemma velocity_is_flow_over_computed_area_witness :
  area sample_pow pipe_copper = Value 0x1.7298ebde3e662p-13
  /\ Velocity (final (calculateHydraulics sample_pow sample_log10 pipe_copper))
     = 10 / 60000.0 / 0x1.7298ebde3e662p-13.
Proof.
  split; [reflexivity |].
  exact (velocity_is_flow_over_computed_area sample_pow sample_log10 pipe_copper
           eq_refl eq_refl).
Defined.

(** C9, as stated, fails on doubles at two inputs with FlowRate < 0 and
    Diameter > 0.  With Diameter = 5e-324 the area underflows to 0.0 and
    the stored Velocity is the 0 of the [else] branch.  With FlowRate =
    -5e-324 (and Diameter = 2000) the flow in m^3/s is -0.0 and so is the
    stored Velocity.  Neither is strictly negative, whatever the C
    library. *)
Lemma negative_flow_velocity_not_negative :
  ~ (exists pow log10, negative_flow_claim pow log10 pipe_vanishing_diameter_reverse)
  /\ ~ (exists pow log10, negative_flow_claim pow log10 pipe_vanishing_reverse_flow).
Proof.
  split; intros (pow & log10 & H);
    destruct (H eq_refl eq_refl) as [Hv _]; vm_compute in Hv; discriminate Hv.
Qed.

Lemma negative_flow_partial_update_on_doubles_witness :
  calculateHydraulics sample_pow sample_log10 pipe_reverse_flow
  = Returned tt (set_PressureLoss 0
                   (set_Velocity (-0x1.e2e34c8933c04p-1) pipe_reverse_flow))
  /\ ((-0x1.e2e34c8933c04p-1 <? 0) = true
      \/ (-0x1.e2e34c8933c04p-1 =? 0) = true
      \/ is_nan (-0x1.e2e34c8933c04p-1) = true).
Proof.
  exact (negative_flow_partial_update_on_doubles sample_pow sample_log10
           pipe_reverse_flow eq_refl eq_refl).
Defined.

Lemma pressure_loss_is_darcy_weisbach_on_doubles_witness :
  (exists o', calculateHydraulics sample_pow sample_log10 pipe_copper = Returned tt o')
  /\ PressureLoss (final (calculateHydraulics sample_pow sample_log10 pipe_copper))
     = 0x1.f8862965d9ab1p-6.
Proof.
  exact (pressure_loss_is_darcy_weisbach_on_doubles sample_pow sample_log10
           pipe_copper eq_refl eq_refl).
Defined.

Lemma guard_on_doubles_witness :
  calculateHydraulics sample_pow sample_log10 pipe_negative_zero_flow
  = Returned tt pipe_negative_zero_flow
  /\ calculateHydraulics sample_pow sample_log10 pipe_negative_zero_diameter
     = Returned tt pipe_negative_zero_diameter.
Proof.
  split.
  - apply (guard_on_doubles sample_pow sample_log10 pipe_negative_zero_flow).
    left. reflexivity.
  - apply (guard_on_doubles sample_pow sample_log10 pipe_negative_zero_diameter).
    right. reflexivity.
Defined.

(** X6. On doubles a valid input can end in the domain error: with
    FlowRate = 1e308, Diameter = 2000, Length = 1000 and RoughnessCoeff =
    0 the Reynolds number overflows to [+inf], [inf ** 0.9] is [inf],
    [5.74 / inf] is 0.0, the argument of the logarithm is 0.0 and
    [math.log10] raises ValueError after Velocity has been stored,
    whatever the C library. *)
Theorem valid_input_domain_error_on_doubles :
  (0 <? FlowRate pipe_immense_flow) = true
  /\ (0 <? Diameter pipe_immense_flow) = true
  /\ (0 <? Length pipe_immense_flow) = true
  /\ (0 <=? RoughnessCoeff pipe_immense_flow) = true
  /\ forall pow log10,
       calculateHydraulics pow log10 pipe_immense_flow
       = Raised ValueError (set_Velocity 0x1.8c16e1b6144b8p+1005 pipe_immense_flow).
Proof. repeat split. Qed.

Lemma failure_state_on_doubles_witness :
  (ValueError = ZeroDivisionError \/ ValueError = ValueError
   \/ ValueError = OverflowError)
  /\ ((area sample_pow pipe_immense_flow = Raises ValueError
       /\ ValueError = OverflowError
       /\ set_Velocity 0x1.8c16e1b6144b8p+1005 pipe_immense_flow = pipe_immense_flow)
      \/ exists a,
           area sample_pow pipe_immense_flow = Value a
           /\ let v := if 0 <? a then FlowRate pipe_immense_flow / 60000.0 / a else 0 in
              (0 <? reynolds v pipe_immense_flow) = true
              /\ pressure_loss_bar sample_pow sample_log10 v pipe_immense_flow
                 = Raises ValueError
              /\ set_Velocity 0x1.8c16e1b6144b8p+1005 pipe_immense_flow
                 = set_Velocity v pipe_immense_flow
              /\ PressureLoss (set_Velocity 0x1.8c16e1b6144b8p+1005 pipe_immense_flow)
                 = PressureLoss pipe_immense_flow).
Proof.
  apply (failure_state_on_doubles sample_pow sample_log10 pipe_immense_flow).
  reflexivity.
Defined.

End DoublesExamples.

(** * More on the real-number model *)

(** ** When and how [calculateHydraulics] fails *)

Lemma calculateHydraulics_raised_inv (o o' : WaterPipe) (e : exn) :
  calculateHydraulics o = Raised e o' ->
  o' = set_Velocity (Spec.velocity o) o
  /\ FlowRate o <> 0 /\ Diameter o <> 0 /\ 0 < Spec.reynolds o
  /\ ((e = ValueError /\ Spec.log_arg o <= 0)
      \/ (e = ZeroDivisionError /\ Spec.log_arg o = 1)).
Proof.
  intros H.
  destruct (Req_dec_T (FlowRate o) 0) as [HQ | HQ].
  { rewrite calculateHydraulics_noop in H by (left; exact HQ). discriminate. }
  destruct (Req_dec_T (Diameter o) 0) as [HD | HD].
  { rewrite calculateHydraulics_noop in H by (right; exact HD). discriminate. }
  destruct (Rlt_dec 0 (Spec.reynolds o)) as [HRe | HRe].
  2:{ rewrite calculateHydraulics_reynolds_nonpos in H by (auto; lra). discriminate. }
  destruct (Rlt_dec 0 (Spec.log_arg o)) as [Harg | Harg].
  2:{ rewrite calculateHydraulics_domain_error in H by (auto; lra).
      injection H as <- <-. repeat split; auto. left. split; [reflexivity | lra]. }
  destruct (Req_dec_T (log10 (Spec.log_arg o)) 0) as [Hlog | Hlog].
  - rewrite calculateHydraulics_zero_division in H by auto.
    injection H as <- <-. repeat split; auto. right. split; [reflexivity |].
    apply (log10_zero_iff _ Harg). exact Hlog.
  - rewrite calculateHydraulics_computed in H by auto. discriminate.
Qed.

Lemma nonnegative_inputs_no_ValueError (o o' : WaterPipe) :
  0 <= Diameter o -> 0 <= RoughnessCoeff o ->
  calculateHydraulics o <> Raised ValueError o'.
Proof.
  intros HD Hr H.
  destruct (calculateHydraulics_raised_inv o o' ValueError H)
    as (_ & HQ & HD0 & HRe & [[_ Harg] | [E _]]); [| discriminate].
  assert (HDpos : 0 < Diameter o) by lra.
  destruct (Rdichotomy _ _ HQ) as [Hneg | Hpos].
  - pose proof (reynolds_neg o Hneg HDpos). lra.
  - pose proof (log_arg_pos o Hpos HDpos Hr). lra.
Qed.



(** ** Recomputation *)

Lemma calculateHydraulics_idempotent_aux (o : WaterPipe) :
  calculateHydraulics (final (calculateHydraulics o)) = calculateHydraulics o.
Proof.
  destruct (Req_dec_T (FlowRate o) 0) as [HQ | HQ].
  { rewrite (calculateHydraulics_noop o) by (left; exact HQ). cbn [final].
    apply calculateHydraulics_noop. left. exact HQ. }
  destruct (Req_dec_T (Diameter o) 0) as [HD | HD].
  { rewrite (calculateHydraulics_noop o) by (right; exact HD). cbn [final].
    apply calculateHydraulics_noop. right. exact HD. }
  destruct (Rlt_dec 0 (Spec.reynolds o)) as [HRe | HRe].
  2:{ assert (HRe' : Spec.reynolds o <= 0) by lra.
      rewrite (calculateHydraulics_reynolds_nonpos o HQ HD HRe'). cbn [final].
      exact (calculateHydraulics_reynolds_nonpos
               (set_PressureLoss 0 (after_velocity o)) HQ HD HRe'). }
  destruct (Rlt_dec 0 (Spec.log_arg o)) as [Harg | Harg].
  2:{ assert (Harg' : Spec.log_arg o <= 0) by lra.
      rewrite (calculateHydraulics_domain_error o HQ HD HRe Harg'). cbn [final].
      exact (calculateHydraulics_domain_error (after_velocity o) HQ HD HRe Harg'). }
  destruct (Req_dec_T (log10 (Spec.log_arg o)) 0) as [Hlog | Hlog].
  - rewrite (calculateHydraulics_zero_division o HQ HD HRe Harg Hlog). cbn [final].
    exact (calculateHydraulics_zero_division (after_velocity o) HQ HD HRe Harg Hlog).
  - rewrite (calculateHydraulics_computed o HQ HD HRe Harg Hlog). cbn [final].
    exact (calculateHydraulics_computed
             (set_PressureLoss (Spec.pressure_loss_bar o) (after_velocity o))
             HQ HD HRe Harg Hlog).
Qed.

(** X4. Calling the method again on the object it left behind changes
    nothing and ends the same way: same return or same exception, same
    object. *)
Theorem calculateHydraulics_idempotent (o : WaterPipe) :
  calculateHydraulics (final (calculateHydraulics o)) = calculateHydraulics o.
Proof. exact (calculateHydraulics_idempotent_aux o). Qed.

(** X5. Past the guard, a call that returns does not depend on the
    Velocity and PressureLoss stored before: started from a pipe that
    differs only in these two, it returns the same object. *)
Theorem completed_call_erases_stored_results (o : WaterPipe) (v p : R) :
  FlowRate o <> 0 -> Diameter o <> 0 ->
  completes (calculateHydraulics o) ->
  calculateHydraulics (set_PressureLoss p (set_Velocity v o)) = calculateHydraulics o.
Proof.
  intros HQ HD Hc. set (o1 := set_PressureLoss p (set_Velocity v o)).
  destruct (Rlt_dec 0 (Spec.reynolds o)) as [HRe | HRe].
  2:{ assert (HRe' : Spec.reynolds o <= 0) by lra.
      rewrite (calculateHydraulics_reynolds_nonpos o HQ HD HRe').
      exact (calculateHydraulics_reynolds_nonpos o1 HQ HD HRe'). }
  destruct (Rlt_dec 0 (Spec.log_arg o)) as [Harg | Harg].
  2:{ rewrite (calculateHydraulics_domain_error o) in Hc by (auto; lra).
      contradiction. }
  destruct (Req_dec_T (log10 (Spec.log_arg o)) 0) as [Hlog | Hlog].
  - rewrite (calculateHydraulics_zero_division o) in Hc by auto. contradiction.
  - rewrite (calculateHydraulics_computed o HQ HD HRe Harg Hlog).
    exact (calculateHydraulics_computed o1 HQ HD HRe Harg Hlog).
Qed.

Lemma completed_call_erases_stored_results_witness :
  calculateHydraulics (set_PressureLoss 7 (set_Velocity 5 pipe_reverse_flow))
  = calculateHydraulics pipe_reverse_flow.
Proof.
  apply (completed_call_erases_stored_results pipe_reverse_flow 5 7).
  - simpl; lra.
  - simpl; lra.
  - rewrite calculateHydraulics_reynolds_nonpos; [exact I | simpl; lra ..|].
    left. apply (reynolds_neg pipe_reverse_flow); simpl; lra.
Defined.

(** ** Material updates *)

Lemma table_roughness_bounds (material : string) :
  0.0001 <= Table.roughness material <= 0.25.
Proof.
  unfold Table.roughness.
  repeat match goal with
  | |- context [String.eqb material ?s] => destruct (String.eqb material s)
  end; lra.
Qed.

(** X10. [updateMaterialProperties] always returns; it writes
    RoughnessCoeff and nothing else; the value it stores lies between
    0.0001 and 0.25, so it is positive; and running it again changes
    nothing. *)
Theorem updateMaterialProperties_effect (o : WaterPipe) :
  exists r : R,
    updateMaterialProperties o = Returned tt (set_RoughnessCoeff r o)
    /\ 0.0001 <= r <= 0.25
    /\ updateMaterialProperties (set_RoughnessCoeff r o)
       = Returned tt (set_RoughnessCoeff r o).
Proof.
  exists (Table.roughness (PipeMaterial o)).
  split; [apply updateMaterialProperties_run |].
  split; [apply table_roughness_bounds |].
  apply (updateMaterialProperties_run (set_RoughnessCoeff _ o)).
Qed.

(** ** Property changes, continued *)

Section OnChangedMore.

Variable ArchPipe_onChanged : string -> Py unit.

Lemma bind_unit_ret (c : Py unit) (o : WaterPipe) :
  bind c (fun _ => bind (ret tt) (fun _ => ret tt)) o = c o.
Proof.
  unfold bind, ret. destruct (c o) as [[] o1 | e o1]; reflexivity.
Qed.

Lemma not_hydraulic_prop (prop : string) :
  ~ In prop hydraulic_props ->
  String.eqb prop "PipeMaterial" = false
  /\ existsb (String.eqb prop) hydraulic_props = false.
Proof.
  intros Hnot. split.
  - apply String.eqb_neq. intros ->. apply Hnot. cbn. tauto.
  - apply not_true_is_false. intros H. apply existsb_exists in H.
    destruct H as [s [Hin Heq]]. apply String.eqb_eq in Heq. subst s.
    exact (Hnot Hin).
Qed.

(** X11. A change of any property other than FlowRate, Diameter, Length,
    PipeMaterial and RoughnessCoeff does nothing beyond the host's own
    handler: no roughness update and no hydraulic calculation.  This
    covers Velocity and PressureLoss, which the calculation itself
    assigns, and Pressure. *)
Theorem onChanged_other_property (prop : string) (o : WaterPipe) :
  ~ In prop hydraulic_props ->
  onChanged ArchPipe_onChanged prop o = ArchPipe_onChanged prop o.
Proof.
  intros Hnot. destruct (not_hydraulic_prop prop Hnot) as [H1 H2].
  unfold onChanged. rewrite H1, H2. apply bind_unit_ret.
Qed.

(** X12. A change of FlowRate, Diameter, Length or RoughnessCoeff runs the
    hydraulic calculation on the object the host's handler returned, with
    no roughness update: the RoughnessCoeff and PipeMaterial found
    afterwards are the ones the handler left, so a roughness entered by
    hand is kept and used. *)
Theorem onChanged_hydraulic_input (prop : string) (o o1 : WaterPipe) :
  In prop ["FlowRate"; "Diameter"; "Length"; "RoughnessCoeff"]%string ->
  ArchPipe_onChanged prop o = Returned tt o1 ->
  onChanged ArchPipe_onChanged prop o = calculateHydraulics o1
  /\ RoughnessCoeff (final (onChanged ArchPipe_onChanged prop o)) = RoughnessCoeff o1
  /\ PipeMaterial (final (onChanged ArchPipe_onChanged prop o)) = PipeMaterial o1.
Proof.
  intros Hin Hparent.
  assert (Hrun : onChanged ArchPipe_onChanged prop o = calculateHydraulics o1).
  { unfold onChanged. rewrite (bind_returned _ _ _ _ _ Hparent).
    cbn in Hin. destruct Hin as [<- | [<- | [<- | [<- | []]]]]; reflexivity. }
  rewrite Hrun. split; [reflexivity |].
  destruct (calculateHydraulics_frame o1) as (_ & _ & _ & Hm & Hr).
  split; assumption.
Qed.

(** X13. A material change on a pipe whose diameter is not negative never
    ends in a ValueError: the roughness has just been set to a positive
    table value, so the logarithm stays inside its domain. *)
Theorem material_change_no_domain_error (o o1 o' : WaterPipe) :
  ArchPipe_onChanged "PipeMaterial" o = Returned tt o1 ->
  0 <= Diameter o1 ->
  onChanged ArchPipe_onChanged "PipeMaterial" o <> Raised ValueError o'.
Proof.
  intros Hparent HD.
  rewrite (onChanged_PipeMaterial_run ArchPipe_onChanged o o1 Hparent).
  apply nonnegative_inputs_no_ValueError.
  - exact HD.
  - pose proof (table_roughness_bounds (PipeMaterial o1)). simpl. lra.
Qed.

End OnChangedMore.

Lemma onChanged_other_property_witness :
  onChanged (fun _ => ret tt) "Pressure" pipe_copper = Returned tt pipe_copper.
Proof.
  apply (onChanged_other_property (fun _ => ret tt) "Pressure" pipe_copper).
  cbn. intros H. decompose [or] H; try discriminate; contradiction.
Defined.

Lemma onChanged_hydraulic_input_witness :
  onChanged (fun _ => ret tt) "RoughnessCoeff" pipe_steel_override
  = calculateHydraulics pipe_steel_override
  /\ RoughnessCoeff (final (onChanged (fun _ => ret tt) "RoughnessCoeff" pipe_steel_override))
     = 0.5
  /\ PipeMaterial (final (onChanged (fun _ => ret tt) "RoughnessCoeff" pipe_steel_override))
     = "Steel"%string.
Proof.
  apply (onChanged_hydraulic_input (fun _ => ret tt) "RoughnessCoeff"
           pipe_steel_override pipe_steel_override).
  - cbn. tauto.
  - reflexivity.
Defined.

Lemma material_change_no_domain_error_witness :
  onChanged (fun _ => ret tt) "PipeMaterial" pipe_negative_roughness
  <> Raised ValueError pipe_negative_roughness.
Proof.
  apply (material_change_no_domain_error (fun _ => ret tt)
           pipe_negative_roughness pipe_negative_roughness).
  - reflexivity.
  - simpl. lra.
Defined.

(** * Sanitary fixtures *)

(** The table row of a fixture type, or the three fallbacks. *)
Lemma updateFixtureDefaults_cases (o : Fixture.SanitaryFixture) :
  let t := Fixture.FixtureType o in
  let o' := Fixture.updateFixtureDefaults o in
  (t = "Sink"%string /\ o' = Fixture.mkSanitaryFixture t 1.5 6.0 850)
  \/ (t = "Wash Hand Basin"%string /\ o' = Fixture.mkSanitaryFixture t 1.0 4.0 800)
  \/ (t = "Toilet Pan"%string /\ o' = Fixture.mkSanitaryFixture t 4.0 0.0 400)
  \/ (t = "Urinal"%string /\ o' = Fixture.mkSanitaryFixture t 2.0 0.0 600)
  \/ (t = "Bath"%string /\ o' = Fixture.mkSanitaryFixture t 3.0 12.0 0)
  \/ (t = "Shower"%string /\ o' = Fixture.mkSanitaryFixture t 2.0 9.0 2100)
  \/ (t = "Bidet"%string /\ o' = Fixture.mkSanitaryFixture t 1.0 4.0 400)
  \/ (~ In t Fixture.known_types /\ o' = Fixture.mkSanitaryFixture t 1.0 6.0 850).
Proof.
  destruct o as [t u f h]. cbn [Fixture.FixtureType].
  unfold Fixture.updateFixtureDefaults, Fixture.fixture_defaults.
  cbn [Fixture.FixtureType].
  destruct (decide (t = "Sink"%string)) as [-> | H1]; [left; split; reflexivity |].
  destruct (decide (t = "Wash Hand Basin"%string)) as [-> | H2];
    [right; left; split; reflexivity |].
  destruct (decide (t = "Toilet Pan"%string)) as [-> | H3];
    [do 2 right; left; split; reflexivity |].
  destruct (decide (t = "Urinal"%string)) as [-> | H4];
    [do 3 right; left; split; reflexivity |].
  destruct (decide (t = "Bath"%string)) as [-> | H5];
    [do 4 right; left; split; reflexivity |].
  destruct (decide (t = "Shower"%string)) as [-> | H6];
    [do 5 right; left; split; reflexivity |].
  destruct (decide (t = "Bidet"%string)) as [-> | H7];
    [do 6 right; left; split; reflexivity |].
  do 7 right. split.
  - cbn. intros H. decompose [or] H; congruence.
  - assert (E : dict_get (<["Sink":=Fixture.row 6.0 1.5 850]>
             (<["Wash Hand Basin":=Fixture.row 4.0 1.0 800]>
                (<["Toilet Pan":=Fixture.row 0.0 4.0 400]>
                   (<["Urinal":=Fixture.row 0.0 2.0 600]>
                      (<["Bath":=Fixture.row 12.0 3.0 0]>
                         (<["Shower":=Fixture.row 9.0 2.0 2100]>
                            (<["Bidet":=Fixture.row 4.0 1.0 400]> ∅)))))))
          t ∅ = ∅).
    { unfold dict_get. rewrite !lookup_insert_ne by congruence.
      rewrite lookup_empty. reflexivity. }
    rewrite !E. reflexivity.
Qed.

Lemma updateFixtureDefaults_by_type (o1 o2 : Fixture.SanitaryFixture) :
  Fixture.FixtureType o1 = Fixture.FixtureType o2 ->
  Fixture.updateFixtureDefaults o1 = Fixture.updateFixtureDefaults o2.
Proof.
  intros E. unfold Fixture.updateFixtureDefaults.
  unfold Fixture.set_InstallationHeight, Fixture.set_FixtureUnits, Fixture.set_FlowRate.
  cbn [Fixture.FixtureType Fixture.FixtureUnits Fixture.FlowRate
       Fixture.InstallationHeight].
  rewrite E. reflexivity.
Qed.

(** X14. [updateFixtureDefaults] stores, as (FlowRate, FixtureUnits,
    InstallationHeight): Sink (6.0, 1.5, 850), Wash Hand Basin (4.0, 1.0,
    800), Toilet Pan (0.0, 4.0, 400), Urinal (0.0, 2.0, 600), Bath (12.0,
    3.0, 0), Shower (9.0, 2.0, 2100), Bidet (4.0, 1.0, 400), and for any
    other fixture type the fallbacks (6.0, 1.0, 850). *)
Theorem fixture_defaults_table (o : Fixture.SanitaryFixture) :
  let t := Fixture.FixtureType o in
  let o' := Fixture.updateFixtureDefaults o in
  let stored := (Fixture.FlowRate o', Fixture.FixtureUnits o',
                 Fixture.InstallationHeight o') in
  (t = "Sink"%string -> stored = (6.0, 1.5, 850))
  /\ (t = "Wash Hand Basin"%string -> stored = (4.0, 1.0, 800))
  /\ (t = "Toilet Pan"%string -> stored = (0.0, 4.0, 400))
  /\ (t = "Urinal"%string -> stored = (0.0, 2.0, 600))
  /\ (t = "Bath"%string -> stored = (12.0, 3.0, 0))
  /\ (t = "Shower"%string -> stored = (9.0, 2.0, 2100))
  /\ (t = "Bidet"%string -> stored = (4.0, 1.0, 400))
  /\ (~ In t Fixture.known_types -> stored = (6.0, 1.0, 850)).
Proof.
  intros t o' stored. subst stored o' t.
  destruct (updateFixtureDefaults_cases o)
    as [[E ->] | [[E ->] | [[E ->] | [[E ->] | [[E ->] | [[E ->] | [[E ->] | [E ->]]]]]]]];
    cbn [Fixture.FlowRate Fixture.FixtureUnits Fixture.InstallationHeight];
    repeat split; intros H;
    try reflexivity;
    try (rewrite E in H; discriminate H);
    try (exfalso; apply H; rewrite E; cbn; tauto);
    try (exfalso; apply E; rewrite H; cbn; tauto).
Qed.

Lemma fixture_defaults_table_witness :
  (Fixture.FlowRate (Fixture.updateFixtureDefaults
                       (Fixture.mkSanitaryFixture "Toilet Pan" 1 6 850)),
   Fixture.FixtureUnits (Fixture.updateFixtureDefaults
                       (Fixture.mkSanitaryFixture "Toilet Pan" 1 6 850)),
   Fixture.InstallationHeight (Fixture.updateFixtureDefaults
                       (Fixture.mkSanitaryFixture "Toilet Pan" 1 6 850)))
  = (0.0, 4.0, 400).
Proof.
  apply (fixture_defaults_table (Fixture.mkSanitaryFixture "Toilet Pan" 1 6 850)).
  reflexivity.
Defined.

(** X15. The three values [updateFixtureDefaults] stores depend on the
    fixture type alone: two fixtures of the same type end up equal, whatever
    FlowRate, FixtureUnits and InstallationHeight they held (values entered
    by hand are overwritten), the type itself is kept, and a second call
    changes nothing. *)
Theorem fixture_defaults_depend_on_type_only (o1 o2 : Fixture.SanitaryFixture) :
  Fixture.FixtureType o1 = Fixture.FixtureType o2 ->
  Fixture.updateFixtureDefaults o1 = Fixture.updateFixtureDefaults o2
  /\ Fixture.FixtureType (Fixture.updateFixtureDefaults o1) = Fixture.FixtureType o1
  /\ Fixture.updateFixtureDefaults (Fixture.updateFixtureDefaults o1)
     = Fixture.updateFixtureDefaults o1.
Proof.
  intros E. split; [apply updateFixtureDefaults_by_type, E |].
  split; [reflexivity |].
  apply updateFixtureDefaults_by_type. reflexivity.
Qed.

Lemma fixture_defaults_depend_on_type_only_witness :
  Fixture.updateFixtureDefaults (Fixture.mkSanitaryFixture "Bath" 9 99 999)
  = Fixture.updateFixtureDefaults (Fixture.mkSanitaryFixture "Bath" 3 12 0).
Proof.
  apply (fixture_defaults_depend_on_type_only
           (Fixture.mkSanitaryFixture "Bath" 9 99 999)
           (Fixture.mkSanitaryFixture "Bath" 3 12 0)).
  reflexivity.
Defined.

(** X16. Whatever the fixture type, known or not, the stored defaults
    satisfy 0 <= FlowRate <= 12, 1 <= FixtureUnits <= 4 and
    0 <= InstallationHeight <= 2100; and the stored FlowRate is 0 exactly
    for Toilet Pan and Urinal. *)
Theorem fixture_defaults_ranges (o : Fixture.SanitaryFixture) :
  let t := Fixture.FixtureType o in
  let o' := Fixture.updateFixtureDefaults o in
  0 <= Fixture.FlowRate o' <= 12
  /\ 1 <= Fixture.FixtureUnits o' <= 4
  /\ 0 <= Fixture.InstallationHeight o' <= 2100
  /\ (Fixture.FlowRate o' = 0 <-> t = "Toilet Pan"%string \/ t = "Urinal"%string).
Proof.
  intros t o'. subst o' t.
  destruct (updateFixtureDefaults_cases o)
    as [[E ->] | [[E ->] | [[E ->] | [[E ->] | [[E ->] | [[E ->] | [[E ->] | [E ->]]]]]]]];
    cbn [Fixture.FlowRate Fixture.FixtureUnits Fixture.InstallationHeight];
    (split; [lra |]); (split; [lra |]); (split; [lra |]);
    try (rewrite E; split; [intros H; lra | intros [H | H]; discriminate H]);
    try (split; [intros _; tauto | intros _; lra]).
  split; [intros H; lra |].
  intros [H | H]; exfalso; apply E; rewrite H; cbn; tauto.
Qed.


(** * Colours of the water systems *)

Lemma color_map_cases (s : string) :
  (s = "Cold Water Supply"%string
   /\ dict_get ViewProvider.color_map s (0.7, 0.7, 0.7) = (0.0, 0.0, 1.0))
  \/ (s = "Hot Water Supply"%string
      /\ dict_get ViewProvider.color_map s (0.7, 0.7, 0.7) = (1.0, 0.0, 0.0))
  \/ (s = "Waste Water"%string
      /\ dict_get ViewProvider.color_map s (0.7, 0.7, 0.7) = (0.5, 0.3, 0.1))
  \/ (s = "Rain Water"%string
      /\ dict_get ViewProvider.color_map s (0.7, 0.7, 0.7) = (0.0, 1.0, 1.0))
  \/ (s = "Gas"%string
      /\ dict_get ViewProvider.color_map s (0.7, 0.7, 0.7) = (1.0, 1.0, 0.0))
  \/ (~ In s ViewProvider.known_systems
      /\ dict_get ViewProvider.color_map s (0.7, 0.7, 0.7) = (0.7, 0.7, 0.7)).
Proof.
  unfold dict_get, ViewProvider.color_map.
  destruct (decide (s = "Cold Water Supply"%string)) as [-> | H1];
    [left; split; reflexivity |].
  destruct (decide (s = "Hot Water Supply"%string)) as [-> | H2];
    [right; left; split; reflexivity |].
  destruct (decide (s = "Waste Water"%string)) as [-> | H3];
    [do 2 right; left; split; reflexivity |].
  destruct (decide (s = "Rain Water"%string)) as [-> | H4];
    [do 3 right; left; split; reflexivity |].
  destruct (decide (s = "Gas"%string)) as [-> | H5];
    [do 4 right; left; split; reflexivity |].
  do 5 right. split.
  - cbn. intros H. decompose [or] H; congruence.
  - rewrite !lookup_insert_ne by congruence. rewrite lookup_empty. reflexivity.
Qed.

Lemma color_neq (a b c a' b' c' : R) :
  a <> a' \/ b <> b' \/ c <> c' -> (a, b, c) <> (a', b', c').
Proof. intros H E. injection E as Ea Eb Ec. tauto. Qed.

(** X17. With the GUI up, [updateSystemColor] gives the line and the shape
    the same colour, and that colour tells the systems apart: a pipe of one
    of the five known system types never gets the colour of a pipe of a
    different system type, known or not (the grey of unknown types is none
    of the five colours). *)
Theorem system_colors_distinct (o1 o2 : ViewProvider.PipeView) :
  In (ViewProvider.SystemType o1) ViewProvider.known_systems ->
  ViewProvider.SystemType o1 <> ViewProvider.SystemType o2 ->
  let v1 := ViewProvider.updateSystemColor true o1 in
  let v2 := ViewProvider.updateSystemColor true o2 in
  ViewProvider.LineColor v1 = ViewProvider.ShapeColor v1
  /\ ViewProvider.LineColor v1 <> ViewProvider.LineColor v2.
Proof.
  intros Hin Hne v1 v2. subst v1 v2. split; [reflexivity |].
  cbn [ViewProvider.updateSystemColor ViewProvider.LineColor].
  destruct (color_map_cases (ViewProvider.SystemType o1))
    as [[E1 ->] | [[E1 ->] | [[E1 ->] | [[E1 ->] | [[E1 ->] | [E1 _]]]]]];
    [| | | | | contradiction];
    destruct (color_map_cases (ViewProvider.SystemType o2))
      as [[E2 ->] | [[E2 ->] | [[E2 ->] | [[E2 ->] | [[E2 ->] | [E2 ->]]]]]];
    try (exfalso; apply Hne; rewrite E1, E2; reflexivity);
    apply color_neq; lra.
Qed.

Lemma system_colors_distinct_witness :
  ViewProvider.LineColor
    (ViewProvider.updateSystemColor true
       (ViewProvider.mkPipeView "Gas" (0, 0, 0) (0, 0, 0)))
  <> ViewProvider.LineColor
       (ViewProvider.updateSystemColor true
          (ViewProvider.mkPipeView "Steam" (0, 0, 0) (0, 0, 0))).
Proof.
  apply (system_colors_distinct
           (ViewProvider.mkPipeView "Gas" (0, 0, 0) (0, 0, 0))
           (ViewProvider.mkPipeView "Steam" (0, 0, 0) (0, 0, 0))).
  - cbn. tauto.
  - discriminate.
Defined.

(** * The hydraulic calculation command *)

Import HydraulicCommand.

Lemma is_water_pipe_with_props (p : WaterPipe) (obj : DocObject) :
  is_water_pipe (with_props p obj) = is_water_pipe obj.
Proof. reflexivity. Qed.

Lemma is_water_pipe_recalculated (obj : DocObject) :
  is_water_pipe (recalculated obj) = is_water_pipe obj.
Proof.
  unfold recalculated. destruct (is_water_pipe obj) eqn:E; [| exact E].
  rewrite is_water_pipe_with_props. exact E.
Qed.

Lemma recalculated_other (obj : DocObject) :
  is_water_pipe obj = false -> recalculated obj = obj.
Proof. intros E. unfold recalculated. rewrite E. reflexivity. Qed.

Lemma recalculated_idempotent (obj : DocObject) :
  recalculated (recalculated obj) = recalculated obj.
Proof.
  unfold recalculated at 1. rewrite is_water_pipe_recalculated.
  destruct (is_water_pipe obj) eqn:E; [| reflexivity].
  unfold recalculated. rewrite E. cbn [props with_props].
  rewrite calculateHydraulics_idempotent_aux. reflexivity.
Qed.

Lemma water_pipes_recalculated (s : list DocObject) :
  water_pipes (map recalculated s) = map recalculated (water_pipes s).
Proof.
  induction s as [| obj rest IH]; [reflexivity |].
  cbn [map water_pipes List.filter]. rewrite is_water_pipe_recalculated.
  destruct (is_water_pipe obj); cbn [map]; unfold water_pipes in IH; rewrite IH;
    reflexivity.
Qed.

(** The tally after counting the pipes of [l] one after the other. *)
Lemma tally_after (l : list DocObject) (t : tally) :
  let t' := fold_left (fun t obj => count_pipe obj t) l t in
  calculated_pipes t' = calculated_pipes t ++ l
  /\ total_flow t'
     = total_flow t + fold_right (fun obj acc => FlowRate (props obj) + acc) 0 l
  /\ total_pressure_loss t'
     = total_pressure_loss t
       + fold_right (fun obj acc => PressureLoss (props obj) + acc) 0 l.
Proof.
  revert t. induction l as [| obj rest IH]; intros t; cbn [fold_left fold_right].
  - rewrite app_nil_r. repeat split; lra.
  - destruct (IH (count_pipe obj t)) as (Hc & Hf & Hp).
    cbn zeta in *. rewrite Hc, Hf, Hp. cbn [count_pipe calculated_pipes total_flow
                                            total_pressure_loss].
    rewrite <- app_assoc. repeat split; lra.
Qed.

Lemma loop_all_return (s : list DocObject) :
  Forall call_returns s ->
  forall t, loop s t
            = LoopDone (map recalculated s)
                (fold_left (fun t obj => count_pipe obj t)
                           (water_pipes (map recalculated s)) t).
Proof.
  induction 1 as [| obj rest Hobj Hrest IH]; intros t; [reflexivity |].
  cbn [loop map]. unfold water_pipes. cbn [List.filter].
  rewrite is_water_pipe_recalculated. unfold recalculated at 1 3.
  destruct (is_water_pipe obj) eqn:E.
  - specialize (Hobj E).
    destruct (calculateHydraulics (props obj)) as [[] p | e p];
      [| contradiction].
    cbn [final fold_left]. rewrite IH. reflexivity.
  - rewrite IH. reflexivity.
Qed.

Lemma loop_first_failure (pre : list DocObject) :
  Forall call_returns pre ->
  forall (obj : DocObject) (post : list DocObject) (e : exn) (p : WaterPipe) (t : tally),
  is_water_pipe obj = true ->
  calculateHydraulics (props obj) = Raised e p ->
  loop (pre ++ obj :: post) t
  = LoopRaised e (map recalculated pre ++ with_props p obj :: post).
Proof.
  induction 1 as [| o rest Ho Hrest IH]; intros obj post e p t Hobj Hcall.
  - cbn [app loop map]. rewrite Hobj, Hcall. reflexivity.
  - cbn [app loop map]. unfold recalculated at 1.
    destruct (is_water_pipe o) eqn:E.
    + specialize (Ho E).
      destruct (calculateHydraulics (props o)) as [[] q | e' q]; [| contradiction].
      cbn [final]. rewrite (IH obj post e p _ Hobj Hcall). reflexivity.
    + rewrite (IH obj post e p _ Hobj Hcall). reflexivity.
Qed.

Lemma all_return_or_first_failure (s : list DocObject) :
  Forall call_returns s
  \/ exists pre obj post e p,
       s = pre ++ obj :: post /\ Forall call_returns pre
       /\ is_water_pipe obj = true
       /\ calculateHydraulics (props obj) = Raised e p.
Proof.
  induction s as [| o rest IH]; [left; constructor |].
  assert (Hdec : call_returns o
                 \/ (is_water_pipe o = true
                     /\ exists e p, calculateHydraulics (props o) = Raised e p)).
  { unfold call_returns. destruct (is_water_pipe o); [| left; discriminate].
    destruct (calculateHydraulics (props o)) as [[] q | e q].
    - left. intros _. exact I.
    - right. split; [reflexivity |]. exists e, q. reflexivity. }
  destruct Hdec as [Ho | [Ho (e & p & Hcall)]].
  - destruct IH as [Hall | (pre & obj & post & e & p & -> & Hpre & Hobj & Hcall)].
    + left. constructor; assumption.
    + right. exists (o :: pre), obj, post, e, p.
      repeat split; [constructor |..]; assumption.
  - right. exists [], o, rest, e, p. repeat split; [constructor |..]; assumption.
Qed.

Lemma recalculated_FlowRate (obj : DocObject) :
  FlowRate (props (recalculated obj)) = FlowRate (props obj).
Proof.
  unfold recalculated. destruct (is_water_pipe obj); [| reflexivity].
  cbn [props with_props]. apply (calculateHydraulics_frame (props obj)).
Qed.

Lemma sum_of_FlowRate_recalculated (s : list DocObject) :
  sum_of FlowRate (map recalculated s) = sum_of FlowRate s.
Proof.
  unfold sum_of. rewrite water_pipes_recalculated.
  induction (water_pipes s) as [| obj rest IH]; [reflexivity |].
  cbn [map fold_right]. rewrite IH, recalculated_FlowRate. reflexivity.
Qed.

Lemma Activated_all_return (s : list DocObject) :
  Forall call_returns s -> water_pipes s <> [] ->
  Activated s
  = Finished [PrintCompleted (length (water_pipes s));
              PrintTotalFlow (sum_of FlowRate s);
              PrintTotalPressureLoss (sum_of PressureLoss (map recalculated s))]
             (map recalculated s).
Proof.
  intros Hall Hne.
  destruct s as [| o rest]; [contradiction Hne; reflexivity |].
  unfold Activated. rewrite (loop_all_return _ Hall).
  set (s := o :: rest) in *.
  destruct (tally_after (water_pipes (map recalculated s)) (mkTally [] 0.0 0.0))
    as (Hc & Hf & Hp).
  cbn zeta in Hc, Hf, Hp. rewrite Hc, Hf, Hp.
  cbn [calculated_pipes total_flow total_pressure_loss app].
  fold (sum_of FlowRate (map recalculated s)).
  fold (sum_of PressureLoss (map recalculated s)).
  rewrite sum_of_FlowRate_recalculated.
  rewrite water_pipes_recalculated.
  destruct (water_pipes s) as [| w ws] eqn:Ew; [contradiction Hne; reflexivity |].
  cbn [map length]. rewrite length_map.
  replace (0.0 + sum_of FlowRate s) with (sum_of FlowRate s) by lra.
  replace (0.0 + sum_of PressureLoss (map recalculated s))
    with (sum_of PressureLoss (map recalculated s)) by lra.
  reflexivity.
Qed.

Lemma Activated_no_pipes (s : list DocObject) :
  s <> [] -> water_pipes s = [] ->
  Activated s = Finished [PrintError ("No water pipes selected" ++ newline)] s.
Proof.
  intros Hne Hnone.
  assert (Hall : Forall call_returns s).
  { apply List.Forall_forall. intros obj Hin Hpipe. exfalso.
    assert (Hw : In obj (water_pipes s)) by (apply filter_In; split; assumption).
    rewrite Hnone in Hw. exact Hw. }
  assert (Hsame : map recalculated s = s).
  { clear Hne Hall. induction s as [| o rest IH]; [reflexivity |].
    unfold water_pipes in Hnone. cbn [List.filter] in Hnone.
    destruct (is_water_pipe o) eqn:E; [discriminate |].
    cbn [map]. rewrite (recalculated_other o E), (IH Hnone). reflexivity. }
  destruct s as [| o rest]; [contradiction Hne; reflexivity |].
  unfold Activated. rewrite (loop_all_return _ Hall).
  rewrite Hsame, Hnone. reflexivity.
Qed.

Lemma Activated_first_failure (pre post : list DocObject) (obj : DocObject)
      (e : exn) (p : WaterPipe) :
  Forall call_returns pre -> is_water_pipe obj = true ->
  calculateHydraulics (props obj) = Raised e p ->
  Activated (pre ++ obj :: post)
  = Escaped e (map recalculated pre ++ with_props p obj :: post).
Proof.
  intros Hpre Hobj Hcall. unfold Activated.
  rewrite (loop_first_failure pre Hpre obj post e p _ Hobj Hcall).
  destruct pre; reflexivity.
Qed.

Lemma map_recalculated_idempotent (s : list DocObject) :
  map recalculated (map recalculated s) = map recalculated s.
Proof.
  rewrite map_map. apply map_ext. intros obj. apply recalculated_idempotent.
Qed.

Lemma call_returns_recalculated (obj : DocObject) :
  call_returns obj -> call_returns (recalculated obj).
Proof.
  intros H Hpipe. rewrite is_water_pipe_recalculated in Hpipe.
  unfold recalculated. rewrite Hpipe. cbn [props with_props].
  rewrite calculateHydraulics_idempotent_aux. exact (H Hpipe).
Qed.

Lemma Forall_call_returns_recalculated (s : list DocObject) :
  Forall call_returns s -> Forall call_returns (map recalculated s).
Proof.
  induction 1 as [| obj rest Hobj Hrest IH]; cbn [map]; constructor;
    [apply call_returns_recalculated |]; assumption.
Qed.

Lemma Activated_finishes (s : list DocObject) :
  Forall call_returns s ->
  exists console, Activated s = Finished console (map recalculated s).
Proof.
  intros Hall.
  destruct s as [| o rest] eqn:Es; [eexists; reflexivity |]. rewrite <- Es in *.
  assert (Hne : s <> []) by (rewrite Es; discriminate).
  destruct (water_pipes s) as [| w ws] eqn:Ew.
  - rewrite (Activated_no_pipes s Hne Ew). eexists. f_equal.
    clear Es Hne Hall. induction s as [| a l IH]; [reflexivity |].
    unfold water_pipes in Ew. cbn [List.filter] in Ew.
    destruct (is_water_pipe a) eqn:E; [discriminate |].
    cbn [map]. rewrite (recalculated_other a E), <- (IH Ew). reflexivity.
  - rewrite (Activated_all_return s Hall); [eexists; reflexivity |].
    rewrite Ew. discriminate.
Qed.


(** X19. With a selection that is not empty and holds no water pipe, the
    command prints the error "No water pipes selected" and leaves the
    selection as it was. *)
Theorem command_without_water_pipes (s : list DocObject) :
  s <> [] -> water_pipes s = [] ->
  Activated s = Finished [PrintError ("No water pipes selected" ++ newline)] s.
Proof. exact (Activated_no_pipes s). Qed.

(** X20. The command lets an exception escape exactly when some selected
    water pipe's call raises: it is the exception of the first such pipe;
    the water pipes before it have been recalculated, the failing pipe is
    left as its call left it, the objects after it are untouched, and
    nothing is printed. *)
Theorem command_escapes_at_first_failure
        (s s' : list DocObject) (e : exn) :
  Activated s = Escaped e s'
  <-> exists pre obj post p,
        s = pre ++ obj :: post
        /\ Forall call_returns pre
        /\ is_water_pipe obj = true
        /\ calculateHydraulics (props obj) = Raised e p
        /\ s' = map recalculated pre ++ with_props p obj :: post.
Proof.
  split.
  - intros H.
    destruct (all_return_or_first_failure s)
      as [Hall | (pre & obj & post & e0 & p & -> & Hpre & Hobj & Hcall)].
    + destruct (Activated_finishes s Hall) as [c Hc]. rewrite Hc in H. discriminate.
    + rewrite (Activated_first_failure pre post obj e0 p Hpre Hobj Hcall) in H.
      injection H as <- <-. exists pre, obj, post, p. repeat split; assumption.
  - intros (pre & obj & post & p & -> & Hpre & Hobj & Hcall & ->).
    apply Activated_first_failure; assumption.
Qed.

(** X21. Running the command again on the selection it left behind gives
    the same console output, or the same exception, and changes nothing
    more. *)
Theorem command_idempotent (s : list DocObject) :
  Activated (selection_after (Activated s)) = Activated s.
Proof.
  destruct (all_return_or_first_failure s)
    as [Hall | (pre & obj & post & e & p & -> & Hpre & Hobj & Hcall)].
  - destruct (Activated_finishes s Hall) as [c Hc].
    rewrite Hc. cbn [selection_after]. rewrite <- Hc. clear c Hc.
    destruct s as [| o rest] eqn:Es; [reflexivity |]. rewrite <- Es in *.
    assert (Hne : s <> []) by (rewrite Es; discriminate).
    assert (Hne' : map recalculated s <> []) by (rewrite Es; discriminate).
    pose proof (Forall_call_returns_recalculated s Hall) as Hall'.
    destruct (water_pipes s) as [| w ws] eqn:Ew.
    + assert (Ew' : water_pipes (map recalculated s) = [])
        by (rewrite water_pipes_recalculated, Ew; reflexivity).
      rewrite (Activated_no_pipes _ Hne' Ew'), (Activated_no_pipes _ Hne Ew).
      destruct (Activated_finishes s Hall) as [c Hc].
      rewrite (Activated_no_pipes _ Hne Ew) in Hc. injection Hc as _ Hs.
      rewrite <- Hs. reflexivity.
    + assert (Hw : water_pipes s <> []) by (rewrite Ew; discriminate).
      assert (Hw' : water_pipes (map recalculated s) <> []).
      { rewrite water_pipes_recalculated, Ew. discriminate. }
      rewrite (Activated_all_return _ Hall' Hw'), (Activated_all_return _ Hall Hw).
      rewrite map_recalculated_idempotent, sum_of_FlowRate_recalculated.
      rewrite water_pipes_recalculated, length_map. reflexivity.
  - rewrite (Activated_first_failure pre post obj e p Hpre Hobj Hcall).
    cbn [selection_after].
    assert (Hcall' : calculateHydraulics (props (with_props p obj)) = Raised e p).
    { cbn [props with_props].
      pose proof (calculateHydraulics_idempotent_aux (props obj)) as Hi.
      rewrite Hcall in Hi. cbn [final] in Hi. exact Hi. }
    rewrite (Activated_first_failure (map recalculated pre) post (with_props p obj) e p
               (Forall_call_returns_recalculated pre Hpre) Hobj Hcall').
    rewrite map_recalculated_idempotent. reflexivity.
Qed.




Lemma command_without_water_pipes_witness :
  Activated [selected_valve]
  = Finished [PrintError ("No water pipes selected" ++ newline)] [selected_valve].
Proof.
  apply (command_without_water_pipes [selected_valve]).
  - discriminate.
  - reflexivity.
Defined.


(** * The creation commands *)

Lemma open_transactions_app (t1 t2 : list gui_action) (n m : nat) :
  CreateCommand.open_transactions n t1 = Some m ->
  CreateCommand.open_transactions n (t1 ++ t2) = CreateCommand.open_transactions m t2.
Proof.
  revert n. induction t1 as [| a rest IH]; intros n H.
  - cbn in H. injection H as ->. reflexivity.
  - destruct a; cbn [app CreateCommand.open_transactions] in *;
      try (apply IH; exact H).
    destruct n as [| k]; [discriminate | apply IH; exact H].
Qed.





(** X24. With a selection that is not empty, [Arch_WaterPipe.Activated]
    creates nothing for an object without a shape or whose shape does not
    have exactly one wire: if no selected object qualifies, all it does is
    recompute the document; no default pipe is created as it is for an
    empty selection. *)
Theorem water_pipe_command_ignores_unsuitable (s : list CreateCommand.Selected) :
  s <> [] ->
  Forall (fun obj => CreateCommand.has_Shape obj = false
                     \/ CreateCommand.wires obj <> 1%nat) s ->
  CreateCommand.Arch_WaterPipe_Activated s = [Recompute].
Proof.
  intros Hne Hall. unfold CreateCommand.Arch_WaterPipe_Activated, CreateCommand.activate.
  destruct s as [| o rest]; [contradiction Hne; reflexivity |]. clear Hne.
  set (s := o :: rest) in *. clearbody s. clear o rest.
  induction Hall as [| a l Ha Hl IH]; [reflexivity |].
  cbn [flat_map].
  assert (E : CreateCommand.has_Shape a && Nat.eqb (CreateCommand.wires a) 1 = false).
  { destruct Ha as [-> | Hw]; [reflexivity |].
    apply andb_false_iff. right. apply Nat.eqb_neq. exact Hw. }
  rewrite E. exact IH.
Qed.

Lemma water_pipe_command_ignores_unsuitable_witness :
  CreateCommand.Arch_WaterPipe_Activated
    [CreateCommand.mkSelected "Sketch" true 2; CreateCommand.mkSelected "Group" false 0]
  = [Recompute].
Proof.
  apply (water_pipe_command_ignores_unsuitable
           [CreateCommand.mkSelected "Sketch" true 2;
            CreateCommand.mkSelected "Group" false 0]).
  - discriminate.
  - constructor; [right; cbn; lia |].
    constructor; [left; reflexivity | constructor].
Defined.

(** * The network command *)

Lemma classify_filters (s : list NetworkCommand.Selected) (c : NetworkCommand.classes) :
  NetworkCommand.classify s c
  = NetworkCommand.mkClasses
      (NetworkCommand.pipes c ++ List.filter NetworkCommand.is_pipe s)
      (NetworkCommand.fixtures c ++ List.filter NetworkCommand.is_fixture s)
      (NetworkCommand.valves c ++ List.filter NetworkCommand.is_valve s).
Proof.
  revert c. induction s as [| obj rest IH]; intros c.
  - cbn. rewrite !app_nil_r. destruct c; reflexivity.
  - cbn [NetworkCommand.classify List.filter].
    unfold NetworkCommand.is_fixture, NetworkCommand.is_valve, NetworkCommand.is_pipe.
    destruct (NetworkCommand.type_is obj "WaterPipe"
              || String.eqb (NetworkCommand.draft_type obj) "Pipe") eqn:Ep.
    { rewrite IH. cbn. rewrite <- app_assoc. reflexivity. }
    destruct (NetworkCommand.type_is obj "SanitaryFixture") eqn:Ef.
    { rewrite IH. cbn. rewrite <- app_assoc. reflexivity. }
    destruct (NetworkCommand.type_is obj "Valve") eqn:Ev.
    { rewrite IH. cbn. rewrite <- app_assoc. reflexivity. }
    rewrite IH. reflexivity.
Qed.

(** X25. The classification loop sorts the selection into three lists that
    keep the order of the selection: the pipes (proxy type "WaterPipe", or
    Draft type "Pipe" whatever the proxy type), then among the rest the
    fixtures (proxy type "SanitaryFixture") and the valves (proxy type
    "Valve").  No object lands in two lists. *)
Theorem network_classification (s : list NetworkCommand.Selected) :
  NetworkCommand.classify s (NetworkCommand.mkClasses [] [] [])
  = NetworkCommand.mkClasses (List.filter NetworkCommand.is_pipe s)
                             (List.filter NetworkCommand.is_fixture s)
                             (List.filter NetworkCommand.is_valve s)
  /\ forall obj,
       (NetworkCommand.is_pipe obj && NetworkCommand.is_fixture obj = false)
       /\ (NetworkCommand.is_pipe obj && NetworkCommand.is_valve obj = false)
       /\ (NetworkCommand.is_fixture obj && NetworkCommand.is_valve obj = false).
Proof.
  split; [apply classify_filters |].
  intros obj. unfold NetworkCommand.is_fixture, NetworkCommand.is_valve.
  destruct (NetworkCommand.is_pipe obj),
           (NetworkCommand.type_is obj "SanitaryFixture"),
           (NetworkCommand.type_is obj "Valve"); repeat split.
Qed.




(** * Property schemas *)

Lemma run_block_lookup (pl : gset string) (b : Schema.block)
      (obj : Schema.DocumentObject) (n : string) :
  Schema.properties (Schema.run_block pl b obj) !! n
  = if decide (Schema.name b = n)
    then (if decide (n ∈ pl) then Schema.properties obj !! n
          else Some (Schema.added b))
    else Schema.properties obj !! n.
Proof.
  unfold Schema.run_block.
  destruct (decide (Schema.name b = n)) as [<- | Hne].
  - destruct (decide (Schema.name b ∈ pl)); [reflexivity |].
    cbn. apply lookup_insert_eq.
  - destruct (decide (Schema.name b ∈ pl)); [reflexivity |].
    cbn. apply lookup_insert_ne. exact Hne.
Qed.

Lemma block_of_none (blocks : list Schema.block) (n : string) :
  ~ In n (Schema.names_of blocks) -> Schema.block_of blocks n = None.
Proof.
  induction blocks as [| b rest IH]; intros Hn; [reflexivity |].
  cbn in Hn. unfold Schema.block_of. cbn [List.find].
  destruct (String.eqb_spec (Schema.name b) n) as [E | _]; [tauto |].
  apply IH. tauto.
Qed.

Lemma fold_blocks_lookup (pl : gset string) (blocks : list Schema.block) (n : string) :
  List.NoDup (Schema.names_of blocks) ->
  forall obj,
    Schema.properties (fold_left (fun obj b => Schema.run_block pl b obj) blocks obj) !! n
    = match Schema.block_of blocks n with
      | Some b => if decide (n ∈ pl) then Schema.properties obj !! n
                  else Some (Schema.added b)
      | None => Schema.properties obj !! n
      end.
Proof.
  induction blocks as [| b rest IH]; intros Hnd obj; [reflexivity |].
  cbn in Hnd. apply List.NoDup_cons_iff in Hnd. destruct Hnd as [Hb Hnd].
  cbn [fold_left]. rewrite (IH Hnd). rewrite run_block_lookup.
  unfold Schema.block_of at 2. cbn [List.find].
  destruct (String.eqb_spec (Schema.name b) n) as [E | Hne].
  - subst n. rewrite (block_of_none rest _ Hb).
    destruct (decide (Schema.name b = Schema.name b)); [reflexivity | contradiction].
  - fold (Schema.block_of rest n).
    destruct (decide (Schema.name b = n)); [contradiction | reflexivity].
Qed.

Lemma fold_blocks_skip (pl : gset string) (blocks : list Schema.block)
      (obj : Schema.DocumentObject) :
  (forall b, In b blocks -> Schema.name b ∈ pl) ->
  fold_left (fun obj b => Schema.run_block pl b obj) blocks obj = obj.
Proof.
  revert obj. induction blocks as [| b rest IH]; intros obj H; [reflexivity |].
  cbn [fold_left]. unfold Schema.run_block at 2.
  destruct (decide (Schema.name b ∈ pl)) as [_ | Hn].
  - apply IH. intros b' Hb'. apply H. right. exact Hb'.
  - exfalso. apply Hn. apply H. left. reflexivity.
Qed.

Lemma block_of_some (blocks : list Schema.block) (b : Schema.block) :
  In b blocks -> exists b', Schema.block_of blocks (Schema.name b) = Some b'.
Proof.
  induction blocks as [| a rest IH]; intros Hin; [contradiction |].
  unfold Schema.block_of. cbn [List.find].
  destruct (String.eqb_spec (Schema.name a) (Schema.name b)) as [_ | Hne];
    [eexists; reflexivity |].
  destruct Hin as [-> | Hin]; [contradiction | apply IH, Hin].
Qed.

(** What [run_blocks] does to one name. *)
Lemma run_blocks_lookup (blocks : list Schema.block) (obj : Schema.DocumentObject)
      (n : string) :
  List.NoDup (Schema.names_of blocks) ->
  Schema.properties (Schema.run_blocks blocks obj) !! n
  = match Schema.properties obj !! n with
    | Some p => Some p
    | None => Schema.added <$> Schema.block_of blocks n
    end.
Proof.
  intros Hnd. unfold Schema.run_blocks. rewrite (fold_blocks_lookup _ _ _ Hnd).
  destruct (Schema.properties obj !! n) as [p |] eqn:E.
  - destruct (Schema.block_of blocks n); [| reflexivity].
    destruct (decide (n ∈ dom (Schema.properties obj))) as [_ | Hn]; [reflexivity |].
    exfalso. apply Hn. apply elem_of_dom. rewrite E. eexists. reflexivity.
  - destruct (Schema.block_of blocks n); [| reflexivity].
    destruct (decide (n ∈ dom (Schema.properties obj))) as [Hn | _]; [| reflexivity].
    apply elem_of_dom in Hn. rewrite E in Hn. destruct Hn as [? Hn]. discriminate.
Qed.

Lemma run_blocks_idempotent (blocks : list Schema.block) (obj : Schema.DocumentObject) :
  List.NoDup (Schema.names_of blocks) ->
  Schema.run_blocks blocks (Schema.run_blocks blocks obj) = Schema.run_blocks blocks obj.
Proof.
  intros Hnd. unfold Schema.run_blocks at 1. apply fold_blocks_skip.
  intros b Hb. apply elem_of_dom.
  rewrite (run_blocks_lookup _ _ _ Hnd).
  destruct (Schema.properties obj !! Schema.name b); [eexists; reflexivity |].
  destruct (block_of_some blocks b Hb) as [b' ->]. eexists. reflexivity.
Qed.

Lemma NoDup_strings (l : list string) :
  (if decide (NoDup l) then True else False) -> List.NoDup l.
Proof.
  destruct (decide (NoDup l)) as [H | _]; [| contradiction].
  intros _. apply NoDup_ListNoDup. exact H.
Qed.

Lemma pipe_names_NoDup : List.NoDup (Schema.names_of Schema.pipe_blocks).
Proof. apply NoDup_strings. vm_compute. exact I. Qed.

Lemma fixture_names_NoDup : List.NoDup (Schema.names_of Schema.fixture_blocks).
Proof. apply NoDup_strings. vm_compute. exact I. Qed.

Lemma valve_names_NoDup : List.NoDup (Schema.names_of Schema.valve_blocks).
Proof. apply NoDup_strings. vm_compute. exact I. Qed.

(** X27. The three schema methods only ever add: a property the object
    already has keeps its type, group and value; every name of the schema
    is a property afterwards; and no other name is touched. *)
Theorem schema_methods_keep_existing_properties
        (obj : Schema.DocumentObject) (n : string) :
  let safe (blocks : list Schema.block)
           (method : Schema.DocumentObject -> Schema.DocumentObject * string) :=
    let obj' := fst (method obj) in
    (forall p, Schema.properties obj !! n = Some p ->
               Schema.properties obj' !! n = Some p)
    /\ (In n (Schema.names_of blocks) -> is_Some (Schema.properties obj' !! n))
    /\ (~ In n (Schema.names_of blocks) ->
        Schema.properties obj' !! n = Schema.properties obj !! n) in
  safe Schema.pipe_blocks Schema.setMEPProperties
  /\ safe Schema.fixture_blocks Schema.setFixtureProperties
  /\ safe Schema.valve_blocks Schema.setValveProperties.
Proof.
  assert (H : forall blocks, List.NoDup (Schema.names_of blocks) ->
    (forall p, Schema.properties obj !! n = Some p ->
               Schema.properties (Schema.run_blocks blocks obj) !! n = Some p)
    /\ (In n (Schema.names_of blocks) ->
        is_Some (Schema.properties (Schema.run_blocks blocks obj) !! n))
    /\ (~ In n (Schema.names_of blocks) ->
        Schema.properties (Schema.run_blocks blocks obj) !! n
        = Schema.properties obj !! n)).
  { intros blocks Hnd. rewrite (run_blocks_lookup _ _ _ Hnd). repeat split.
    - intros p ->. reflexivity.
    - intros Hin. destruct (Schema.properties obj !! n); [eexists; reflexivity |].
      apply in_map_iff in Hin. destruct Hin as [b [<- Hb]].
      destruct (block_of_some blocks b Hb) as [b' ->]. eexists. reflexivity.
    - intros Hn. rewrite (block_of_none _ _ Hn).
      destruct (Schema.properties obj !! n); reflexivity. }
  cbn zeta. cbn [fst Schema.setMEPProperties Schema.setFixtureProperties
                 Schema.setValveProperties].
  split; [| split]; apply H;
    [apply pipe_names_NoDup | apply fixture_names_NoDup | apply valve_names_NoDup].
Qed.

Lemma schema_methods_keep_existing_properties_witness :
  Schema.properties
    (fst (Schema.setMEPProperties
            (Schema.mkDocumentObject
               {["FlowRate"%string
                 := Schema.mkProperty "App::PropertyFloat" "MEP Hydraulics"
                                      (Schema.Number 12)]} ∅)))
  !! "FlowRate"%string
  = Some (Schema.mkProperty "App::PropertyFloat" "MEP Hydraulics" (Schema.Number 12)).
Proof.
  destruct (schema_methods_keep_existing_properties
              (Schema.mkDocumentObject
                 {["FlowRate"%string
                   := Schema.mkProperty "App::PropertyFloat" "MEP Hydraulics"
                                        (Schema.Number 12)]} ∅)
              "FlowRate"%string) as [[H _] _].
  apply H. apply lookup_singleton_eq.
Defined.

(** X28. Each schema method is idempotent: run on the object it produced
    it adds nothing, changes no value and no editor mode. *)
Theorem schema_methods_idempotent (obj : Schema.DocumentObject) :
  Schema.setMEPProperties (fst (Schema.setMEPProperties obj))
  = Schema.setMEPProperties obj
  /\ Schema.setFixtureProperties (fst (Schema.setFixtureProperties obj))
     = Schema.setFixtureProperties obj
  /\ Schema.setValveProperties (fst (Schema.setValveProperties obj))
     = Schema.setValveProperties obj.
Proof.
  unfold Schema.setMEPProperties, Schema.setFixtureProperties, Schema.setValveProperties.
  cbn [fst].
  rewrite (run_blocks_idempotent _ obj pipe_names_NoDup).
  rewrite (run_blocks_idempotent _ obj fixture_names_NoDup).
  rewrite (run_blocks_idempotent _ obj valve_names_NoDup).
  repeat split.
Qed.

(** X29. The default roughness matches the default material: when
    [setMEPProperties] adds both PipeMaterial and RoughnessCoeff, the
    roughness it stores is the one [updateMaterialProperties] looks up for
    the material it selects. *)
Theorem fresh_roughness_matches_material (obj : Schema.DocumentObject) :
  Schema.properties obj !! "PipeMaterial"%string = None ->
  Schema.properties obj !! "RoughnessCoeff"%string = None ->
  let obj' := fst (Schema.setMEPProperties obj) in
  exists choices material r,
    Schema.pvalue <$> Schema.properties obj' !! "PipeMaterial"%string
    = Some (Schema.Enumeration choices material)
    /\ Schema.pvalue <$> Schema.properties obj' !! "RoughnessCoeff"%string
       = Some (Schema.Number r)
    /\ r = dict_get material_roughness material 0.0015.
Proof.
  intros Hm Hr. cbn zeta. cbn [fst Schema.setMEPProperties].
  rewrite !(run_blocks_lookup _ _ _ pipe_names_NoDup), Hm, Hr.
  eexists _, _, _. split; [reflexivity |]. split; [reflexivity |].
  rewrite material_roughness_lookup. reflexivity.
Qed.

Lemma fresh_roughness_matches_material_witness :
  exists choices material r,
    Schema.pvalue <$> Schema.properties
        (fst (Schema.setMEPProperties (Schema.mkDocumentObject ∅ ∅)))
      !! "PipeMaterial"%string
    = Some (Schema.Enumeration choices material)
    /\ Schema.pvalue <$> Schema.properties
          (fst (Schema.setMEPProperties (Schema.mkDocumentObject ∅ ∅)))
        !! "RoughnessCoeff"%string
       = Some (Schema.Number r)
    /\ r = dict_get material_roughness material 0.0015.
Proof.
  apply (fresh_roughness_matches_material (Schema.mkDocumentObject ∅ ∅));
    reflexivity.
Defined.

(** X30. Every choice an enumeration offers has its own entry in the table
    that is looked up with it, and the tables have no other entries: the
    pipe materials and the roughness table, the fixture types and the
    fixture defaults, the system types and the colour map.  The fallback
    values are therefore used only for names outside the enumerations. *)
Theorem enumerations_match_tables :
  list_to_set (Schema.choices_of Schema.pipe_blocks "PipeMaterial")
  = dom material_roughness
  /\ list_to_set (Schema.choices_of Schema.fixture_blocks "FixtureType")
     = dom Fixture.fixture_defaults
  /\ list_to_set (Schema.choices_of Schema.pipe_blocks "SystemType")
     = dom ViewProvider.color_map.
Proof.
  unfold material_roughness, Fixture.fixture_defaults, ViewProvider.color_map.
  rewrite !dom_insert_L, !dom_empty_L.
  cbn [Schema.choices_of Schema.block_of List.find Schema.pipe_blocks
       Schema.fixture_blocks].
  repeat split; cbn; set_solver.
Qed.
